(** * The rubric evaluator of the data analyst agent

    A shallow embedding of [src/evaluate_agent.py] (class
    [DataAnalystEvaluator]) and the properties of its 20-point rubric,
    followed by the part of [src/main.py] that builds the plot the
    rubric checks.

    Conventions of the embedding:
    - a Python [str] is the list of its code points, [bytes] a list of
      octets; both are lists of [N];
    - a decoded JSON document is a [pyval];
    - a Python exception is a constructor of [exn]; code that can raise
      returns an [outcome], and the methods of the evaluator, which also
      update [self.total_score], live in the monad [M];
    - the text written by [print] is kept for the structural gate only;
      elsewhere a [print] matters only because it can raise (see
      [print_value]);
    - [run_evaluation] starts from the value [test_api_response]
      returned, so that a submission can be evaluated again without a
      new request;
    - the library code the checks call ([str.encode], [str.split],
      [base64.b64decode], [re.search], [float], [==], [/]) follows
      CPython 3; [repr] of floats and containers and [float] of a
      string are parameters of the development. *)

From Stdlib Require Import ZArith NArith List String Ascii Bool Lia.
From Stdlib Require Import Floats DecimalString.
Import ListNotations.

Set Implicit Arguments.

(** ** Exceptions and outcomes *)

Inductive exn : Type :=
| IndexError | KeyError | TypeError | ValueError | AttributeError
| UnicodeEncodeError | OverflowError | ZeroDivisionError
| BinasciiError.

Inductive outcome (A : Type) : Type :=
| Ok (a : A)
| Raise (e : exn).
Arguments Raise {A} e.

Definition succeeds {A} (r : outcome A) : bool :=
  match r with Ok _ => true | Raise _ => false end.

(** ** Strings and bytes *)

Module PyStr.

Definition codepoint := N.
Definition str := list codepoint.
Definition bytes := list N.

(** A literal of the source, all of whose characters are ASCII. *)
Definition lit (s : string) : str := map N_of_ascii (list_ascii_of_string s).

Definition is_surrogate (c : codepoint) : bool :=
  ((0xD800 <=? c) && (c <=? 0xDFFF))%N.

(** [c.encode('utf-8')] for one code point; a lone surrogate has no
    encoding. *)
Definition encode_utf8_cp (c : codepoint) : option bytes :=
  (if c <? 0x80 then Some [c]
   else if c <? 0x800 then Some [0xC0 + c / 64; 0x80 + c mod 64]
   else if c <? 0x10000 then
     if is_surrogate c then None
     else Some [0xE0 + c / 4096; 0x80 + (c / 64) mod 64; 0x80 + c mod 64]
   else Some [0xF0 + c / 262144; 0x80 + (c / 4096) mod 64;
              0x80 + (c / 64) mod 64; 0x80 + c mod 64])%N.

(** [s.encode('utf-8')]: raises [UnicodeEncodeError] on a lone surrogate. *)
Fixpoint encode_utf8 (s : str) : outcome bytes :=
  match s with
  | [] => Ok []
  | c :: s' =>
      match encode_utf8_cp c, encode_utf8 s' with
      | Some b, Ok bs => Ok (b ++ bs)
      | _, _ => Raise UnicodeEncodeError
      end
  end.

(** [s.encode('ascii')] as [base64.b64decode] uses it on a [str]
    argument: any non-ASCII character is a [ValueError]. *)
Fixpoint encode_ascii (s : str) : outcome bytes :=
  match s with
  | [] => Ok []
  | c :: s' =>
      if (c <? 128)%N then
        match encode_ascii s' with
        | Ok bs => Ok (c :: bs)
        | Raise e => Raise e
        end
      else Raise ValueError
  end.

(** [strip_prefix p s] is the rest of [s] after the prefix [p]. *)
Fixpoint strip_prefix (p s : str) : option str :=
  match p, s with
  | [], _ => Some s
  | a :: p', b :: s' => if (a =? b)%N then strip_prefix p' s' else None
  | _ :: _, [] => None
  end.

(** [s.startswith(p)] *)
Definition startswith (s p : str) : bool :=
  match strip_prefix p s with Some _ => true | None => false end.

(** The first occurrence of [sep] in [s]: the text before it and the
    text after it. *)
Fixpoint find_first (sep s : str) : option (str * str) :=
  match strip_prefix sep s with
  | Some rest => Some ([], rest)
  | None =>
      match s with
      | [] => None
      | c :: s' =>
          match find_first sep s' with
          | Some (b, a) => Some (c :: b, a)
          | None => None
          end
      end
  end.

(** [sep in s] *)
Definition contains (sep s : str) : bool :=
  match find_first sep s with Some _ => true | None => false end.

(** [s.split(sep)] for a non-empty [sep]: the occurrences are taken from
    the left and do not overlap.  Every occurrence consumes a character,
    so [S (length s)] rounds are enough ([split_fuel_enough]). *)
Fixpoint split_fuel (fuel : nat) (sep s : str) : list str :=
  match fuel with
  | O => [s]
  | S k =>
      match find_first sep s with
      | None => [s]
      | Some (b, a) => b :: split_fuel k sep a
      end
  end.

Definition split (s sep : str) : list str :=
  split_fuel (S (List.length s)) sep s.

(** [str(n)] for an integer. *)
Definition str_of_Z (z : Z) : str := lit (NilZero.string_of_int (Z.to_int z)).

End PyStr.
Import PyStr.

(** ** [base64.b64decode] *)

Module Base64.

(** [table_a2b_base64] of CPython's [binascii]: the 6-bit value of a
    character of the alphabet. *)
Definition table_a2b_base64 (c : N) : option N :=
  (if (65 <=? c) && (c <=? 90) then Some (c - 65)
   else if (97 <=? c) && (c <=? 122) then Some (c - 71)
   else if (48 <=? c) && (c <=? 57) then Some (c + 4)
   else if c =? 43 then Some 62
   else if c =? 47 then Some 63
   else None)%N.

Definition BASE64_PAD : N := 61.

(** Storing into an [unsigned char]. *)
Definition u8 (n : N) : N := N.land n 255.

(** The loop of [binascii.a2b_base64] in its default, non-strict mode.
    [out] is the output written so far, last byte first. *)
Fixpoint a2b_loop (data : bytes) (quad_pos leftchar pads : N) (out : bytes)
  : outcome bytes :=
  match data with
  | [] => if (quad_pos =? 0)%N then Ok (rev out) else Raise BinasciiError
  | this_ch :: rest =>
      if (this_ch =? BASE64_PAD)%N then
        if (2 <=? quad_pos)%N then
          if (4 <=? quad_pos + (pads + 1))%N then Ok (rev out)
          else a2b_loop rest quad_pos leftchar (pads + 1)%N out
        else a2b_loop rest quad_pos leftchar pads out
      else
        match table_a2b_base64 this_ch with
        | None => a2b_loop rest quad_pos leftchar pads out
        | Some v =>
            match quad_pos with
            | 0%N => a2b_loop rest 1%N v 0%N out
            | 1%N =>
                a2b_loop rest 2%N (N.land v 0x0f) 0%N
                  (u8 (N.lor (N.shiftl leftchar 2) (N.shiftr v 4)) :: out)
            | 2%N =>
                a2b_loop rest 3%N (N.land v 0x03) 0%N
                  (u8 (N.lor (N.shiftl leftchar 4) (N.shiftr v 2)) :: out)
            | _ =>
                a2b_loop rest 0%N 0%N 0%N
                  (u8 (N.lor (N.shiftl leftchar 6) v) :: out)
            end
        end
  end.

Definition a2b_base64 (data : bytes) : outcome bytes :=
  a2b_loop data 0 0 0 [].

(** [base64.b64decode(s)] for a [str] argument, no [altchars], no
    [validate]. *)
Definition b64decode (s : str) : outcome bytes :=
  match encode_ascii s with
  | Ok data => a2b_base64 data
  | Raise e => Raise e
  end.

End Base64.
Import Base64.

(** ** Decoded JSON values *)

#[local] Set Warnings "-register-all".
Inductive pyval : Type :=
| PNone
| PBool (b : bool)
| PInt (z : Z)
| PFloat (f : float)
| PStr (s : str)
| PList (l : list pyval)
| PDict (d : list (str * pyval)).

(** [result[i]] for a constant index [i]. *)
Definition getitem (v : pyval) (i : nat) : outcome pyval :=
  match v with
  | PList l =>
      match nth_error l i with Some x => Ok x | None => Raise IndexError end
  | PStr s =>
      match nth_error s i with
      | Some c => Ok (PStr [c])
      | None => Raise IndexError
      end
  | PDict _ => Raise KeyError
  | _ => Raise TypeError
  end.

(** ** Numbers *)

Module PyNum.

(** [float(n)] of an integer, before the range check: the nearest
    double, ties to even. *)
Definition float_of_Z (z : Z) : float :=
  SF2Prim (binary_normalize prec emax z 0 false).

(** [float(n)]: [OverflowError] when [n] is too large for a double. *)
Definition float_of_int (z : Z) : outcome float :=
  let f := float_of_Z z in
  if PrimFloat.is_infinity f then Raise OverflowError else Ok f.

(** The quotient [a / b] rounded once, to nearest even: the quotient of
    the magnitudes is computed with at least 57 bits and a sticky bit.
    A zero quotient has the sign of the operands: negative when exactly
    one of them is. *)
Definition div_rounded (a b : Z) : float :=
  let negate := xorb (a <? 0)%Z (b <? 0)%Z in
  let k := Z.max 0 (57 + Z.log2 (Z.abs b) - Z.log2 (Z.abs a)) in
  let n := (Z.abs a * 2 ^ k)%Z in
  let q := (n / Z.abs b)%Z in
  let sticky := if (n mod Z.abs b =? 0)%Z then 0%Z else 1%Z in
  let m := (2 * q + sticky)%Z in
  SF2Prim (binary_normalize prec emax (Z.sgn a * Z.sgn b * m) (- k - 1)
             negate).

(** [a / b] on two integers (true division). *)
Definition true_div (a b : Z) : outcome float :=
  if (b =? 0)%Z then Raise ZeroDivisionError
  else
    let q :=
      if ((Z.abs a <=? 2 ^ 53) && (Z.abs b <=? 2 ^ 53))%Z
      then PrimFloat.div (float_of_Z a) (float_of_Z b)
      else div_rounded a b in
    if PrimFloat.is_infinity q then Raise OverflowError else Ok q.

(** [v == 1] for a decoded JSON value [v]: [bool] is a subclass of
    [int], and a float compares by value. *)
Definition py_eq_1 (v : pyval) : bool :=
  match v with
  | PInt z => (z =? 1)%Z
  | PBool b => b
  | PFloat f => PrimFloat.eqb f 1%float
  | _ => false
  end.

End PyNum.
Import PyNum.

(** ** [re.search(r'titanic', s, re.I)] *)

Module Re.

(** The characters a lower-case ASCII letter of a pattern matches under
    [re.I] on a [str]: its two cases and the extra case-equivalents of
    Unicode matching. *)
Definition matches_ignorecase (p c : codepoint) : bool :=
  ((c =? p) || (c =? p - 32)
   || ((p =? 105) && ((c =? 0x130) || (c =? 0x131)))
   || ((p =? 115) && (c =? 0x17F))
   || ((p =? 107) && (c =? 0x212A)))%N.

Fixpoint match_here (pat s : str) : bool :=
  match pat, s with
  | [], _ => true
  | p :: pat', c :: s' => matches_ignorecase p c && match_here pat' s'
  | _ :: _, [] => false
  end.

(** [re.search(pat, s, re.I)] is not [None], for a pattern [pat] of
    lower-case ASCII letters. *)
Fixpoint search_ignorecase (pat s : str) : bool :=
  match_here pat s
  || match s with [] => false | _ :: s' => search_ignorecase pat s' end.

End Re.
Import Re.

(** ** The evaluator object and its monad *)

Record Evaluator : Type := mkEvaluator {
  api_url : str;
  total_score : Z;
  max_score : Z
}.

(** [DataAnalystEvaluator.__init__] *)
Definition init (api_url : str) : Evaluator :=
  {| api_url := api_url; total_score := 0; max_score := 20 |}.

(** A method body: it reads and updates [self] and returns or raises. *)
Definition M (A : Type) : Type := Evaluator -> outcome A * Evaluator.

Definition ret {A} (a : A) : M A := fun self => (Ok a, self).

Definition bind {A B} (m : M A) (k : A -> M B) : M B :=
  fun self =>
    match m self with
    | (Ok a, self') => k a self'
    | (Raise e, self') => (Raise e, self')
    end.

Definition lift {A} (r : outcome A) : M A := fun self => (r, self).

Definition get_self : M Evaluator := fun self => (Ok self, self).

(** [self.total_score += n] *)
Definition add_score (n : Z) : M unit :=
  fun self =>
    (Ok tt, {| api_url := api_url self;
               total_score := total_score self + n;
               max_score := max_score self |}).

(** [try: body except Exception as e: handler] *)
Definition try_except {A} (body : M A) (handler : exn -> M A) : M A :=
  fun self =>
    match body self with
    | (Ok a, self') => (Ok a, self')
    | (Raise e, self') => handler e self'
    end.

Declare Scope py_scope.
Delimit Scope py_scope with py.
Notation "x <- m ;; k" := (bind m (fun x => k))
  (at level 61, m at next level, right associativity) : py_scope.
Notation "m ;; k" := (bind m (fun _ => k))
  (at level 61, right associativity) : py_scope.
Open Scope py_scope.

(** [print(f"... {v} ...")] of a submitted value inside a [try]: standard
    output is a UTF-8 stream, so the text of a string with a lone
    surrogate cannot be written; the text of any other value is
    printable. *)
Definition print_value (v : pyval) : M unit :=
  match v with
  | PStr s => lift (match encode_utf8 s with
                    | Ok _ => Ok tt
                    | Raise e => Raise e
                    end)
  | _ => ret tt
  end.

(** The report [run_evaluation] returns (a [dict] in the source). *)
Record Report : Type := mkReport {
  success : bool;
  score : Z;
  report_max_score : Z;
  percentage : pyval;
  details : string;
  response : option pyval
}.

(** ** The checks of the rubric *)

Section Rubric.

(** Two builtins are left open: [str()] of a float or of a container
    (their [repr]), and [float()] of a string ([None] for the
    [ValueError] of a text that is not a number). *)
Variable repr : pyval -> str.
Variable float_of_str : str -> option float.

(** [str(v)] *)
Definition py_str (v : pyval) : str :=
  match v with
  | PStr s => s
  | PNone => lit "None"
  | PBool true => lit "True"
  | PBool false => lit "False"
  | PInt z => str_of_Z z
  | _ => repr v
  end.

(** [float(v)] *)
Definition py_float (v : pyval) : outcome float :=
  match v with
  | PFloat f => Ok f
  | PInt z => float_of_int z
  | PBool b => Ok (if b then 1%float else 0%float)
  | PStr s =>
      match float_of_str s with
      | Some f => Ok f
      | None => Raise ValueError
      end
  | _ => Raise TypeError
  end.

Definition MAGNIFIER : codepoint := 0x1F50D%N.
Definition CROSS : codepoint := 0x274C%N.
Definition CHECK : codepoint := 0x2705%N.

(** [evaluate_structure]: the lines it prints and its return value. *)
Definition evaluate_structure (result : pyval) : list str * bool :=
  let banner := 10%N :: MAGNIFIER :: lit " Test 1: Structural Validation" in
  match result with
  | PList l =>
      if Nat.eqb (List.length l) 4 then
        ([banner; CHECK :: lit " Response is a 4-element array"], true)
      else
        ([banner;
          CROSS :: lit " Array has " ++ str_of_Z (Z.of_nat (List.length l))
                ++ lit " elements, expected 4"], false)
  | _ => ([banner; CROSS :: lit " Response is not an array"], false)
  end.

(** The body of the [try] of [evaluate_first_answer]. *)
Definition first_answer_body (result : pyval) : M bool :=
  first_answer <- lift (getitem result 0) ;;
  if py_eq_1 first_answer then
    print_value first_answer ;;
    add_score 4 ;;
    ret true
  else
    print_value first_answer ;;
    ret false.

Definition evaluate_first_answer (result : pyval) : M bool :=
  try_except (first_answer_body result) (fun _ => ret false).

(** The body of the [try] of [evaluate_second_answer]. *)
Definition second_answer_body (result : pyval) : M bool :=
  item <- lift (getitem result 1) ;;
  let second_answer := py_str item in
  if search_ignorecase (lit "titanic") second_answer then
    print_value item ;;
    add_score 4 ;;
    ret true
  else
    print_value item ;;
    ret false.

Definition evaluate_second_answer (result : pyval) : M bool :=
  try_except (second_answer_body result) (fun _ => ret false).

Set Warnings "-inexact-float".
Definition expected : float := 0.485782%float.
Definition tolerance : float := 0.001%float.
Set Warnings "inexact-float".

(** The body of the [try] of [evaluate_third_answer]. *)
Definition third_answer_body (result : pyval) : M bool :=
  item <- lift (getitem result 2) ;;
  third_answer <- lift (py_float item) ;;
  if PrimFloat.leb (PrimFloat.abs (PrimFloat.sub third_answer expected))
       tolerance
  then
    add_score 4 ;;
    ret true
  else ret false.

Definition evaluate_third_answer (result : pyval) : M bool :=
  try_except (third_answer_body result) (fun _ => ret false).

Definition marker : str := lit "base64,".

(** The inner [try] of [evaluate_plot]: [can_decode]. *)
Definition can_decode (plot_data : str) : bool :=
  let attempt : outcome bool :=
    if contains marker plot_data then
      match nth_error (split plot_data marker) 1 with
      | None => Raise IndexError
      | Some base64_part =>
          match b64decode base64_part with
          | Ok _ => Ok true
          | Raise e => Raise e
          end
      end
    else Ok false in
  match attempt with
  | Ok b => b
  | Raise _ => false
  end.

(** [criteria_met] of [evaluate_plot], with the exceptions that leave
    the outer [try] before it is built. *)
Definition plot_criteria (plot_data : pyval) : outcome (list bool) :=
  match plot_data with
  | PStr s =>
      let is_data_uri := startswith s (lit "data:image/") in
      let has_base64 := contains marker s in
      match encode_utf8 s with
      | Raise e => Raise e
      | Ok encoded =>
          let size_bytes := Z.of_nat (List.length encoded) in
          let size_ok := (size_bytes <? 100000)%Z in
          Ok [is_data_uri; has_base64; size_ok; can_decode s]
      end
  | _ => Raise AttributeError
  end.

(** [sum(criteria_met)] *)
Definition sum_bool (l : list bool) : Z :=
  fold_right (fun b acc => (Z.b2z b + acc)%Z) 0%Z l.

Definition points_per_criterion : Z := 2.

(** The body of the outer [try] of [evaluate_plot]. *)
Definition plot_body (result : pyval) : M bool :=
  plot_data <- lift (getitem result 3) ;;
  criteria_met <- lift (plot_criteria plot_data) ;;
  let points_earned := (sum_bool criteria_met * points_per_criterion)%Z in
  add_score points_earned ;;
  ret (forallb (fun b => b) criteria_met).

Definition evaluate_plot (result : pyval) : M bool :=
  try_except (plot_body result) (fun _ => ret false).

(** [run_evaluation], from the value [test_api_response] returned
    ([PNone] when the request failed or the body was JSON [null]). *)
Definition run_evaluation (result : pyval) : M Report :=
  match result with
  | PNone =>
      self <- get_self ;;
      ret {| success := false; score := 0;
             report_max_score := max_score self;
             percentage := PInt 0;
             details := "API request failed";
             response := None |}
  | _ =>
      let structure_passed := snd (evaluate_structure result) in
      if negb structure_passed then
        self <- get_self ;;
        ret {| success := false; score := 0;
               report_max_score := max_score self;
               percentage := PInt 0;
               details :=
                 "Failed structural validation - not a 4-element array";
               response := None |}
      else
        evaluate_first_answer result ;;
        evaluate_second_answer result ;;
        evaluate_third_answer result ;;
        evaluate_plot result ;;
        self <- get_self ;;
        quotient <- lift (true_div (total_score self) (max_score self)) ;;
        let percentage := PrimFloat.mul quotient 100%float in
        ret {| success := true; score := total_score self;
               report_max_score := max_score self;
               percentage := PFloat percentage;
               details := "Evaluation completed successfully";
               response := Some result |}
  end.

End Rubric.

(** * Derived notions

    The vocabulary of the properties below; none of it is code of the
    evaluator. *)

Local Open Scope Z_scope.

(** The text between the first occurrence of the separator and the
    next one, or the end of the string. *)
Definition up_to (sep rest : str) : str :=
  match find_first sep rest with
  | Some (b, _) => b
  | None => rest
  end.

(** A character of the base64 alphabet. *)
Definition in_alphabet (c : N) : bool :=
  match table_a2b_base64 c with Some _ => true | None => false end.

(** Padded base64 as a producer writes it: groups of four characters of
    the alphabet, the last group closed by [=] or [==] when the data
    does not fill it. *)
Fixpoint valid_base64 (s : str) : bool :=
  match s with
  | [] => true
  | a :: b :: c :: d :: rest =>
      in_alphabet a && in_alphabet b &&
      match rest with
      | [] =>
          (in_alphabet c && (in_alphabet d || (d =? BASE64_PAD)%N))
          || ((c =? BASE64_PAD)%N && (d =? BASE64_PAD)%N)
      | _ => in_alphabet c && in_alphabet d && valid_base64 rest
      end
  | _ => false
  end.

(** [self] after [self.total_score += n]. *)
Definition award (n : Z) (self : Evaluator) : Evaluator :=
  {| api_url := api_url self;
     total_score := total_score self + n;
     max_score := max_score self |}.

(** The points a method adds to the running total of [self]. *)
Definition awarded {A : Type} (method : M A) (self : Evaluator) : Z :=
  total_score (snd (method self)) - total_score self.

(** A value whose text [print] can write. *)
Definition printable (v : pyval) : bool :=
  match v with
  | PStr s => succeeds (encode_utf8 s)
  | _ => true
  end.

Definition first_answer_points (result : pyval) : Z :=
  match getitem result 0 with
  | Ok x => if py_eq_1 x then 4 else 0
  | Raise _ => 0
  end.

Definition plot_points (result : pyval) : Z :=
  match getitem result 3 with
  | Ok v =>
      match plot_criteria v with
      | Ok criteria_met => sum_bool criteria_met * 2
      | Raise _ => 0
      end
  | Raise _ => 0
  end.

(** Sub-criterion [i] of the plot check, counted from 0 in the order of
    [criteria_met], holds. *)
Definition criterion_met (i : nat) (plot_data : pyval) : bool :=
  match plot_criteria plot_data with
  | Ok criteria_met => nth i criteria_met false
  | Raise _ => false
  end.

(** What sub-criterion [i] contributes to [points_earned]. *)
Definition criterion_points (i : nat) (plot_data : pyval) : Z :=
  if criterion_met i plot_data then points_per_criterion else 0.

Section Points.

Variable repr : pyval -> str.
Variable float_of_str : str -> option float.

Definition second_answer_points (result : pyval) : Z :=
  match getitem result 1 with
  | Ok x =>
      if search_ignorecase (lit "titanic") (py_str repr x) && printable x
      then 4 else 0
  | Raise _ => 0
  end.

Definition third_answer_points (result : pyval) : Z :=
  match getitem result 2 with
  | Ok x =>
      match py_float float_of_str x with
      | Ok third_answer =>
          if PrimFloat.leb
               (PrimFloat.abs (PrimFloat.sub third_answer expected))
               tolerance
          then 4 else 0
      | Raise _ => 0
      end
  | Raise _ => 0
  end.

(** The sum of what the four content checks award. *)
Definition content_points (result : pyval) : Z :=
  first_answer_points result + second_answer_points result
  + third_answer_points result + plot_points result.

End Points.

(** The report of a request that failed. *)
Definition request_failure_report (self : Evaluator) : Report :=
  {| success := false; score := 0; report_max_score := max_score self;
     percentage := PInt 0; details := "API request failed";
     response := None |}.

(** The report of a submission the structural gate rejects. *)
Definition structural_failure_report (self : Evaluator) : Report :=
  {| success := false; score := 0; report_max_score := max_score self;
     percentage := PInt 0;
     details := "Failed structural validation - not a 4-element array";
     response := None |}.

(** The report of a run in which the content checks ran. *)
Definition completed_report (result : pyval) (self : Evaluator)
           (quotient : float) : Report :=
  {| success := true; score := total_score self;
     report_max_score := max_score self;
     percentage := PFloat (PrimFloat.mul quotient 100%float);
     details := "Evaluation completed successfully";
     response := Some result |}.

(** The decoded value is an array of exactly four elements. *)
Definition four_elements (result : pyval) : bool :=
  match result with
  | PList l => Nat.eqb (List.length l) 4
  | _ => false
  end.

(** * The rest of the evaluator *)

(** What comes back from the request of [test_api_response]: the
    question file cannot be opened, [requests.post] raises (connection
    refused, time-out), or there is a response, with its status code and
    what [response.json()] does. *)
Inductive reply : Type :=
| NoQuestionFile
| RequestError
| Response (status_code : Z) (json : outcome pyval).

(** [print(f"... {str(result)[:200]}...")]: the first 200 characters of
    a string body are written as they are and must have an encoding;
    the text of any other value is printable (see [print_value]). *)
Definition preview_printable (result : pyval) : bool :=
  match result with
  | PStr s => succeeds (encode_utf8 (firstn 200 s))
  | _ => true
  end.

(** [test_api_response]: the value it returns, [PNone] for [None].  All
    of its body is inside the [try], whose handler returns [None]. *)
Definition test_api_response (r : reply) : pyval :=
  match r with
  | Response status_code json =>
      if status_code =? 200 then
        match json with
        | Ok result => if preview_printable result then result else PNone
        | Raise _ => PNone
        end
      else PNone
  | _ => PNone
  end.

(** The band [run_evaluation] prints for a percentage. *)
Inductive verdict : Type := EXCELLENT | GOOD | FAIR | NEEDS_WORK.

Definition verdict_of (percentage : float) : verdict :=
  if PrimFloat.leb 90 percentage then EXCELLENT
  else if PrimFloat.leb 70 percentage then GOOD
  else if PrimFloat.leb 50 percentage then FAIR
  else NEEDS_WORK.

Definition default_api_url : str := lit "http://localhost:8000/api/".

Section Main.

Variable repr : pyval -> str.
Variable float_of_str : str -> option float.

(** [main], up to the report it is about to write: a new evaluator with
    the default address runs once. *)
Definition main (r : reply) : outcome Report * Evaluator :=
  run_evaluation repr float_of_str (test_api_response r)
    (init default_api_url).

(** The evaluator after [n] calls of [run_evaluation] that all fetched
    the same value. *)
Fixpoint rerun (n : nat) (result : pyval) (self : Evaluator) : Evaluator :=
  match n with
  | O => self
  | S k => rerun k result (snd (run_evaluation repr float_of_str result self))
  end.

End Main.

(** * The plot the service builds ([src/main.py]) *)

Module Base64Enc.

(** [table_b2a_base64] of CPython's [binascii]. *)
Definition table_b2a_base64 (v : N) : N :=
  nth (N.to_nat v)
    (lit "ABCDEFGHIJKLMNOPQRSTUVWXYZabcdefghijklmnopqrstuvwxyz0123456789+/")
    0%N.

(** Storing into an [unsigned int]. *)
Definition u32 (n : N) : N := N.land n 0xFFFFFFFF.

(** The inner loop of [binascii.b2a_base64]: while six bits are ready,
    write a character.  It runs at most [leftbits / 6] times. *)
Fixpoint drain (fuel : nat) (leftchar leftbits : N) : list N * N :=
  match fuel with
  | O => ([], leftbits)
  | S k =>
      if (6 <=? leftbits)%N then
        let this_ch := N.land (N.shiftr leftchar (leftbits - 6)) 0x3f in
        let (out, leftbits') := drain k leftchar (leftbits - 6)%N in
        (table_b2a_base64 this_ch :: out, leftbits')
      else ([], leftbits)
  end.

(** The outer loop of [binascii.b2a_base64] and the padding after it. *)
Fixpoint b2a_loop (data : bytes) (leftchar leftbits : N) : bytes :=
  match data with
  | [] =>
      if (leftbits =? 2)%N then
        [table_b2a_base64 (N.shiftl (N.land leftchar 3) 4);
         BASE64_PAD; BASE64_PAD]
      else if (leftbits =? 4)%N then
        [table_b2a_base64 (N.shiftl (N.land leftchar 0xf) 2); BASE64_PAD]
      else []
  | b :: rest =>
      let leftchar := u32 (N.lor (N.shiftl leftchar 8) b) in
      let leftbits := (leftbits + 8)%N in
      let (out, leftbits') := drain (N.to_nat leftbits) leftchar leftbits in
      out ++ b2a_loop rest leftchar leftbits'
  end.

(** [base64.b64encode(s)]: [binascii.b2a_base64(s, newline=False)]. *)
Definition b64encode (s : bytes) : bytes := b2a_loop s 0 0.

End Base64Enc.
Import Base64Enc.

(** [image_base64 = base64.b64encode(image).decode()] followed by
    [f"data:image/png;base64,{image_base64}"]; the encoded bytes are
    ASCII ([b64encode_ascii]), so the decoded text has the same codes. *)
Definition png_data_uri (image : bytes) : str :=
  lit "data:image/png;base64," ++ b64encode image.

(** The same with [f"data:image/webp;base64,{image_base64}"]. *)
Definition webp_data_uri (image : bytes) : str :=
  lit "data:image/webp;base64," ++ b64encode image.

(** [create_default_plot], from the bytes [plt.savefig] wrote. *)
Definition create_default_plot (image : bytes) : str := webp_data_uri image.

Set Warnings "-inexact-float".
(** [generic_analysis], from the bytes of its default plot. *)
Definition generic_analysis (image : bytes) : pyval :=
  PList [PStr (lit "Analysis completed"); PStr (lit "Generic result");
         PFloat 0.5; PStr (create_default_plot image)].
Set Warnings "inexact-float".

(** [create_rank_peak_scatterplot], from what its three renderings give:
    the first one at full size, the second one when the first is found
    too large, and the one of the [except] branch.  A rendering that
    raises stands for any exception of its block. *)
Definition create_rank_peak_scatterplot
           (first second fallback : outcome bytes) : outcome str :=
  let handler :=
    match fallback with
    | Ok image => Ok (png_data_uri image)
    | Raise e => Raise e
    end in
  match first with
  | Ok image =>
      let image_base64 := b64encode image in
      if 100000 <? Z.of_nat (List.length image_base64) then
        match second with
        | Ok image' => Ok (png_data_uri image')
        | Raise _ => handler
        end
      else Ok (png_data_uri image)
  | Raise _ => handler
  end.

(** A character of the text matches a letter of the pattern under
    [re.I]. *)
Definition letter_matches (p c : codepoint) : Prop :=
  matches_ignorecase p c = true.

(** * Checking a property of small numbers by running it *)

(** [f] holds of every number below [n]. *)
Fixpoint all_below (n : nat) (f : N -> bool) : bool :=
  match n with
  | O => true
  | S k => f (N.of_nat k) && all_below k f
  end.

(** * Properties *)

Unset Implicit Arguments.

(** ** Searching and splitting strings *)

Section StrFacts.

Lemma strip_prefix_app (p s r : str) :
  strip_prefix p s = Some r -> s = p ++ r.
Proof.
  revert s; induction p as [|a p IH]; intros [|b s]; simpl; try congruence.
  destruct (N.eqb_spec a b) as [->|]; [|discriminate].
  intros H; rewrite (IH _ H); reflexivity.
Qed.

Lemma strip_prefix_complete (p r : str) : strip_prefix p (p ++ r) = Some r.
Proof.
  induction p as [|a p IH]; simpl; [destruct r; reflexivity|].
  rewrite N.eqb_refl; exact IH.
Qed.

(** [find_first] returns an occurrence of the separator... *)
Lemma find_first_app (sep s b a : str) :
  find_first sep s = Some (b, a) -> s = b ++ sep ++ a.
Proof.
  revert b; induction s as [|c s IH]; intros b; simpl.
  - destruct (strip_prefix sep []) eqn:E; [|discriminate].
    intros [= <- <-]; exact (strip_prefix_app _ _ _ E).
  - destruct (strip_prefix sep (c :: s)) eqn:E.
    + intros [= <- <-]; exact (strip_prefix_app _ _ _ E).
    + destruct (find_first sep s) as [[b0 a0]|]; [|discriminate].
      intros [= <- <-]; simpl; f_equal; apply IH; reflexivity.
Qed.

(** ... and no occurrence starts before it. *)
Lemma find_first_leftmost (sep s b a b' a' : str) :
  find_first sep s = Some (b, a) -> s = b' ++ sep ++ a' ->
  (List.length b <= List.length b')%nat.
Proof.
  revert b b'; induction s as [|c s IH]; intros b b'; simpl.
  - destruct (strip_prefix sep []); [|discriminate].
    intros [= <- <-] _; simpl; lia.
  - destruct (strip_prefix sep (c :: s)) eqn:E.
    + intros [= <- <-] _; simpl; lia.
    + destruct (find_first sep s) as [[b0 a0]|] eqn:F; [|discriminate].
      intros [= <- <-] Hs; destruct b' as [|c' b'']; simpl in Hs.
      * rewrite Hs, strip_prefix_complete in E; discriminate.
      * injection Hs as _ Hs; simpl.
        specialize (IH b0 b'' eq_refl Hs); lia.
Qed.

Lemma find_first_none (sep s b a : str) :
  find_first sep s = None -> s <> b ++ sep ++ a.
Proof.
  revert b; induction s as [|c s IH]; intros b; simpl.
  - destruct (strip_prefix sep []) eqn:E; [discriminate|].
    intros _ Hs; destruct b; simpl in Hs.
    + rewrite Hs, strip_prefix_complete in E; discriminate.
    + discriminate.
  - destruct (strip_prefix sep (c :: s)) eqn:E; [discriminate|].
    destruct (find_first sep s) as [[b0 a0]|] eqn:F; [discriminate|].
    intros _ Hs; destruct b as [|c' b']; simpl in Hs.
    + rewrite Hs, strip_prefix_complete in E; discriminate.
    + injection Hs as _ Hs; exact (IH b' eq_refl Hs).
Qed.

(** [sep in s] holds exactly when [s] has an occurrence of [sep]. *)
Lemma contains_spec (sep s : str) :
  contains sep s = true <-> exists b a, s = b ++ sep ++ a.
Proof.
  unfold contains; destruct (find_first sep s) as [[b a]|] eqn:F; split.
  - intros _; exists b, a; exact (find_first_app _ _ _ _ F).
  - reflexivity.
  - discriminate.
  - intros (b & a & Hs); exfalso; exact (find_first_none sep s b a F Hs).
Qed.

Lemma find_first_shorter (sep s b a : str) :
  sep <> [] -> find_first sep s = Some (b, a) ->
  (List.length a < List.length s)%nat.
Proof.
  intros Hsep F; rewrite (find_first_app _ _ _ _ F), !length_app.
  destruct sep; [congruence|simpl; lia].
Qed.

(** The fuel of [split] is enough: more fuel gives the same pieces. *)
Lemma split_fuel_enough (sep : str) (n m : nat) (s : str) :
  sep <> [] -> (List.length s < n)%nat -> (List.length s < m)%nat ->
  split_fuel n sep s = split_fuel m sep s.
Proof.
  intros Hsep; revert m s; induction n as [|n IH]; intros m s Hn Hm; [lia|].
  destruct m as [|m]; [lia|]; simpl.
  destruct (find_first sep s) as [[b a]|] eqn:F; [|reflexivity].
  pose proof (find_first_shorter _ _ _ _ Hsep F).
  f_equal; apply IH; lia.
Qed.

(** [s.split(sep)[1]] is the text after the first separator up to the
    next one. *)
Lemma split_second (sep s b a : str) :
  sep <> [] -> find_first sep s = Some (b, a) ->
  nth_error (split s sep) 1 = Some (up_to sep a).
Proof.
  intros Hsep F; unfold split, up_to; simpl; rewrite F.
  pose proof (find_first_shorter _ _ _ _ Hsep F) as Hlen.
  destruct (List.length s) as [|n]; [lia|]; simpl.
  destruct (find_first sep a) as [[b' a']|]; reflexivity.
Qed.

End StrFacts.

(** The pieces of [split] on small inputs. *)
Example split_two_markers :
  split (lit "xbase64,ybase64,z") (lit "base64,")
  = [lit "x"; lit "y"; lit "z"].
Proof. reflexivity. Qed.

Example split_trailing_marker :
  split (lit "abase64,") (lit "base64,") = [lit "a"; []].
Proof. reflexivity. Qed.

Example split_no_marker :
  split (lit "not-a-data-uri") (lit "base64,") = [lit "not-a-data-uri"].
Proof. reflexivity. Qed.

(** ** Base64 text that decodes *)

Section Base64Facts.

(** The decoder on small inputs: padding closes a group, characters
    after it are not read, a single character left over is an error. *)
Example b64decode_padded : b64decode (lit "QQ==") = Ok [65%N].
Proof. reflexivity. Qed.

Example b64decode_after_padding : b64decode (lit "QQ==QQ==") = Ok [65%N].
Proof. reflexivity. Qed.

Example b64decode_pad_then_data :
  b64decode (lit "AB=C=D") = Ok [0%N; 16%N].
Proof. reflexivity. Qed.

Example b64decode_one_left : b64decode (lit "A") = Raise BinasciiError.
Proof. reflexivity. Qed.

Example b64decode_missing_padding :
  b64decode (lit "AAA") = Raise BinasciiError.
Proof. reflexivity. Qed.

Example b64decode_not_ascii : b64decode [233%N] = Raise ValueError.
Proof. reflexivity. Qed.

Lemma table_range (c v : N) :
  table_a2b_base64 c = Some v -> (43 <= c < 123 /\ c <> 44 /\ c <> 61)%N.
Proof.
  unfold table_a2b_base64.
  repeat match goal with
         | |- context [(?x <=? ?y)%N] => destruct (N.leb_spec x y); simpl
         | |- context [(?x =? ?y)%N] => destruct (N.eqb_spec x y); simpl
         end; intros [= <-]; lia.
Qed.

Lemma alphabet_range (c : N) :
  in_alphabet c = true -> (43 <= c < 123 /\ c <> 44 /\ c <> 61)%N.
Proof.
  unfold in_alphabet; destruct (table_a2b_base64 c) eqn:E; [|discriminate].
  intros _; exact (table_range _ _ E).
Qed.

(** One round of the loop on a character of the alphabet. *)
Lemma a2b_loop_char (c rest : _) (quad_pos leftchar pads : N) (out : bytes) :
  in_alphabet c = true ->
  exists v,
    table_a2b_base64 c = Some v /\
    a2b_loop (c :: rest) quad_pos leftchar pads out =
    match quad_pos with
    | 0%N => a2b_loop rest 1%N v 0%N out
    | 1%N =>
        a2b_loop rest 2%N (N.land v 0x0f) 0%N
          (u8 (N.lor (N.shiftl leftchar 2) (N.shiftr v 4)) :: out)
    | 2%N =>
        a2b_loop rest 3%N (N.land v 0x03) 0%N
          (u8 (N.lor (N.shiftl leftchar 4) (N.shiftr v 2)) :: out)
    | _ =>
        a2b_loop rest 0%N 0%N 0%N (u8 (N.lor (N.shiftl leftchar 6) v) :: out)
    end.
Proof.
  intros Hc; pose proof (alphabet_range _ Hc) as (_ & _ & Hpad).
  unfold in_alphabet in Hc.
  destruct (table_a2b_base64 c) as [v|] eqn:E; [|discriminate].
  exists v; split; [reflexivity|].
  simpl; rewrite E.
  destruct (N.eqb_spec c BASE64_PAD) as [->|]; [contradiction|reflexivity].
Qed.

(** Induction over the groups of four of a valid text. *)
Lemma valid_base64_groups (P : str -> Prop) :
  P [] ->
  (forall a b c d,
      in_alphabet a = true -> in_alphabet b = true ->
      (in_alphabet c = true /\ (in_alphabet d = true \/ d = BASE64_PAD))
      \/ (c = BASE64_PAD /\ d = BASE64_PAD) ->
      P [a; b; c; d]) ->
  (forall a b c d rest,
      in_alphabet a = true -> in_alphabet b = true ->
      in_alphabet c = true -> in_alphabet d = true ->
      rest <> [] -> P rest -> P (a :: b :: c :: d :: rest)) ->
  forall s, valid_base64 s = true -> P s.
Proof.
  intros H0 Hlast Hstep s.
  assert (G : forall n s, (List.length s <= n)%nat ->
                          valid_base64 s = true -> P s);
    [|exact (G _ s (le_n _))].
  clear s; induction n as [|n IH]; intros s Hn Hv.
  - destruct s; [exact H0|simpl in Hn; lia].
  - destruct s as [|a [|b [|c [|d rest]]]]; simpl in Hv; try discriminate;
      [exact H0|].
    apply andb_true_iff in Hv as [Hab Hv].
    apply andb_true_iff in Hab as [Ha Hb].
    destruct rest as [|e rest].
    + apply Hlast; trivial.
      apply orb_true_iff in Hv as [Hv|Hv];
        apply andb_true_iff in Hv as [Hc Hd].
      * left; split; [exact Hc|].
        apply orb_true_iff in Hd as [Hd|Hd];
          [left; exact Hd|right; apply N.eqb_eq; exact Hd].
      * right; split; apply N.eqb_eq; assumption.
    + apply andb_true_iff in Hv as [Hcd Hv].
      apply andb_true_iff in Hcd as [Hc Hd].
      apply Hstep; trivial; [discriminate|].
      apply IH; [simpl in Hn |- *; lia|exact Hv].
Qed.

(** [binascii.a2b_base64] accepts every valid text. *)
Lemma a2b_loop_valid (s : str) :
  valid_base64 s = true ->
  forall out, succeeds (a2b_loop s 0 0 0 out) = true.
Proof.
  intros Hv; pattern s; revert s Hv; apply valid_base64_groups.
  - reflexivity.
  - intros a b c d Ha Hb Hcd out.
    destruct (a2b_loop_char a [b; c; d] 0 0 0 out Ha) as (va & _ & ->).
    destruct (a2b_loop_char b [c; d] 1 va 0 out Hb) as (vb & _ & ->).
    destruct Hcd as [[Hc Hd]|[-> ->]]; [|reflexivity].
    destruct (a2b_loop_char c [d] 2 (N.land vb 0x0f) 0
                (u8 (N.lor (N.shiftl va 2) (N.shiftr vb 4)) :: out) Hc)
      as (vc & _ & ->).
    destruct Hd as [Hd| ->]; [|reflexivity].
    match goal with
    | |- context [a2b_loop [d] ?q ?l ?p ?o] =>
        destruct (a2b_loop_char d [] q l p o Hd) as (vd & _ & ->)
    end.
    reflexivity.
  - intros a b c d rest Ha Hb Hc Hd _ IH out.
    destruct (a2b_loop_char a (b :: c :: d :: rest) 0 0 0 out Ha)
      as (va & _ & ->).
    destruct (a2b_loop_char b (c :: d :: rest) 1 va 0 out Hb)
      as (vb & _ & ->).
    match goal with
    | |- context [a2b_loop (c :: ?r) ?q ?l ?p ?o] =>
        destruct (a2b_loop_char c r q l p o Hc) as (vc & _ & ->)
    end.
    match goal with
    | |- context [a2b_loop (d :: ?r) ?q ?l ?p ?o] =>
        destruct (a2b_loop_char d r q l p o Hd) as (vd & _ & ->)
    end.
    apply IH.
Qed.

Lemma valid_base64_chars (s : str) :
  valid_base64 s = true ->
  Forall (fun c => (c < 128)%N /\ c <> 44%N) s.
Proof.
  assert (A : forall c, in_alphabet c = true -> (c < 128)%N /\ c <> 44%N)
    by (intros c Hc; pose proof (alphabet_range _ Hc); lia).
  assert (B : (BASE64_PAD < 128)%N /\ BASE64_PAD <> 44%N)
    by (unfold BASE64_PAD; lia).
  intros Hv; pattern s; revert s Hv; apply valid_base64_groups.
  - constructor.
  - intros a b c d Ha Hb [[Hc [Hd| ->]]|[-> ->]];
      repeat (apply Forall_cons; [solve [auto]|]); apply Forall_nil.
  - intros a b c d rest Ha Hb Hc Hd _ IH.
    repeat (apply Forall_cons; [solve [auto]|]); exact IH.
Qed.

Lemma encode_ascii_id (s : str) :
  Forall (fun c => (c < 128)%N) s -> encode_ascii s = Ok s.
Proof.
  induction 1 as [|c s Hc _ IH]; simpl; [reflexivity|].
  apply N.ltb_lt in Hc; rewrite Hc, IH; reflexivity.
Qed.

(** [base64.b64decode] succeeds on every valid text. *)
Lemma b64decode_valid (s : str) :
  valid_base64 s = true -> succeeds (b64decode s) = true.
Proof.
  intros Hv; unfold b64decode, a2b_base64.
  rewrite encode_ascii_id.
  - apply a2b_loop_valid; exact Hv.
  - eapply Forall_impl; [|exact (valid_base64_chars _ Hv)].
    intros c [Hc _]; exact Hc.
Qed.

(** Characters outside the alphabet are skipped: an ASCII text without
    any character of the alphabet decodes to the empty byte string. *)
Lemma a2b_loop_skips (s : str) (pads : N) :
  Forall (fun c => in_alphabet c = false) s ->
  a2b_loop s 0 0 pads [] = Ok [].
Proof.
  induction 1 as [|c s Hc _ IH]; simpl; [reflexivity|].
  unfold in_alphabet in Hc.
  destruct (table_a2b_base64 c); [discriminate|].
  destruct (c =? BASE64_PAD)%N; exact IH.
Qed.

Lemma b64decode_skips (s : str) :
  Forall (fun c => (c < 128)%N /\ in_alphabet c = false) s ->
  b64decode s = Ok [].
Proof.
  intros H; unfold b64decode, a2b_base64.
  rewrite encode_ascii_id.
  - apply a2b_loop_skips; eapply Forall_impl; [|exact H].
    intros c [_ Hc]; exact Hc.
  - eapply Forall_impl; [|exact H]; intros c [Hc _]; exact Hc.
Qed.

End Base64Facts.

(** ** What each check adds to the score *)

Section CheckFacts.

Variable repr : pyval -> str.
Variable float_of_str : str -> option float.

Lemma award_0 (self : Evaluator) : award 0 self = self.
Proof. destruct self; unfold award; simpl; rewrite Z.add_0_r; reflexivity. Qed.

Lemma award_award (n m : Z) (self : Evaluator) :
  award m (award n self) = award (n + m) self.
Proof. unfold award; simpl; rewrite Z.add_assoc; reflexivity. Qed.

Lemma awarded_award {A : Type} (method : M A) (self : Evaluator)
      (r : outcome A) (n : Z) :
  method self = (r, award n self) -> awarded method self = n.
Proof. unfold awarded; intros ->; simpl; lia. Qed.

Lemma print_value_run (v : pyval) (self : Evaluator) :
  (printable v = true /\ print_value v self = (Ok tt, self))
  \/ (printable v = false /\ exists e, print_value v self = (Raise e, self)).
Proof.
  destruct v; simpl; try (left; split; reflexivity).
  unfold lift; destruct (encode_utf8 s); simpl;
    [left; split; reflexivity|right; split; [reflexivity|eexists; reflexivity]].
Qed.

Lemma py_eq_1_printable (v : pyval) : py_eq_1 v = true -> printable v = true.
Proof. destruct v; simpl; intros; trivial; discriminate. Qed.

(** [evaluate_first_answer] never raises; it adds [first_answer_points]. *)
Lemma evaluate_first_answer_run (result : pyval) (self : Evaluator) :
  evaluate_first_answer result self =
  (Ok (0 <? first_answer_points result)%Z,
   award (first_answer_points result) self).
Proof.
  unfold evaluate_first_answer, try_except, first_answer_body,
    first_answer_points, bind, lift.
  destruct (getitem result 0) as [x|e]; simpl; [|rewrite award_0; reflexivity].
  destruct (py_eq_1 x) eqn:E.
  - destruct (print_value_run x self) as [[_ ->]|[Hp _]];
      [reflexivity|rewrite (py_eq_1_printable _ E) in Hp; discriminate].
  - destruct (print_value_run x self) as [[_ ->]|[_ [e ->]]];
      simpl; rewrite award_0; reflexivity.
Qed.

(** [evaluate_second_answer] never raises; it adds
    [second_answer_points]. *)
Lemma evaluate_second_answer_run (result : pyval) (self : Evaluator) :
  evaluate_second_answer repr result self =
  (Ok (0 <? second_answer_points repr result)%Z,
   award (second_answer_points repr result) self).
Proof.
  unfold evaluate_second_answer, try_except, second_answer_body,
    second_answer_points, bind, lift.
  destruct (getitem result 1) as [x|e]; [|simpl; rewrite award_0; reflexivity].
  cbv beta iota.
  destruct (search_ignorecase (lit "titanic") (py_str repr x));
    destruct (print_value_run x self) as [[Hp Hr]|[Hp [e Hr]]];
    rewrite Hr, Hp; simpl; rewrite ?award_0; reflexivity.
Qed.

(** [evaluate_third_answer] never raises; it adds
    [third_answer_points]. *)
Lemma evaluate_third_answer_run (result : pyval) (self : Evaluator) :
  evaluate_third_answer float_of_str result self =
  (Ok (0 <? third_answer_points float_of_str result)%Z,
   award (third_answer_points float_of_str result) self).
Proof.
  unfold evaluate_third_answer, try_except, third_answer_body,
    third_answer_points, bind, lift.
  destruct (getitem result 2) as [x|e]; simpl; [|rewrite award_0; reflexivity].
  destruct (py_float float_of_str x) as [f|e]; simpl;
    [|rewrite award_0; reflexivity].
  destruct (PrimFloat.leb _ _); simpl; rewrite ?award_0; reflexivity.
Qed.

(** [evaluate_plot] never raises; it adds [plot_points]. *)
Lemma evaluate_plot_run (result : pyval) (self : Evaluator) :
  exists b : bool,
    evaluate_plot result self = (Ok b, award (plot_points result) self).
Proof.
  unfold evaluate_plot, try_except, plot_body, plot_points, bind, lift.
  destruct (getitem result 3) as [v|e]; simpl;
    [|exists false; rewrite award_0; reflexivity].
  destruct (plot_criteria v) as [c|e]; simpl;
    [|exists false; rewrite award_0; reflexivity].
  eexists; reflexivity.
Qed.

Lemma first_answer_points_range (result : pyval) :
  first_answer_points result = 0 \/ first_answer_points result = 4.
Proof.
  unfold first_answer_points; destruct (getitem result 0); auto.
  destruct (py_eq_1 a); auto.
Qed.

Lemma second_answer_points_range (result : pyval) :
  second_answer_points repr result = 0 \/ second_answer_points repr result = 4.
Proof.
  unfold second_answer_points; destruct (getitem result 1); auto.
  destruct (_ && _); auto.
Qed.

Lemma third_answer_points_range (result : pyval) :
  third_answer_points float_of_str result = 0 \/ third_answer_points float_of_str result = 4.
Proof.
  unfold third_answer_points; destruct (getitem result 2); auto.
  destruct (py_float float_of_str a); auto.
  destruct (PrimFloat.leb _ _); auto.
Qed.

Lemma plot_criteria_four (v : pyval) (c : list bool) :
  plot_criteria v = Ok c -> exists b1 b2 b3 b4, c = [b1; b2; b3; b4].
Proof.
  destruct v; simpl; try discriminate.
  destruct (encode_utf8 s); [|discriminate].
  intros [= <-]; repeat eexists.
Qed.

Lemma plot_points_range (result : pyval) :
  exists k, plot_points result = 2 * k /\ 0 <= k <= 4.
Proof.
  unfold plot_points; destruct (getitem result 3) as [v|];
    [|exists 0; lia].
  destruct (plot_criteria v) as [c|] eqn:E; [|exists 0; lia].
  destruct (plot_criteria_four _ _ E) as (b1 & b2 & b3 & b4 & ->).
  exists (sum_bool [b1; b2; b3; b4]); split; [lia|].
  destruct b1, b2, b3, b4; simpl; lia.
Qed.

End CheckFacts.

(** ** The runner *)

Section RunFacts.

Variable repr : pyval -> str.
Variable float_of_str : str -> option float.

Lemma evaluate_structure_four (result : pyval) :
  snd (evaluate_structure result) = four_elements result.
Proof.
  destruct result; try reflexivity; simpl.
  destruct (Nat.eqb (List.length l) 4); reflexivity.
Qed.

(** A rejected submission: the run is the early return. *)
Lemma run_evaluation_rejected (result : pyval) (self : Evaluator) :
  four_elements result = false ->
  run_evaluation repr float_of_str result self =
  (Ok (match result with
       | PNone => request_failure_report self
       | _ => structural_failure_report self
       end), self).
Proof.
  intros H; unfold run_evaluation.
  rewrite evaluate_structure_four, H.
  destruct result; reflexivity.
Qed.

(** An accepted submission: the four checks run in turn, then the
    percentage is computed from the running total. *)
Lemma run_evaluation_accepted (result : pyval) (self : Evaluator) :
  four_elements result = true ->
  run_evaluation repr float_of_str result self =
  let self' := award (content_points repr float_of_str result) self in
  match true_div (total_score self') (max_score self') with
  | Ok quotient => (Ok (completed_report result self' quotient), self')
  | Raise e => (Raise e, self')
  end.
Proof.
  intros H; unfold run_evaluation.
  rewrite evaluate_structure_four, H.
  destruct result; try discriminate H.
  cbv beta iota delta [negb bind].
  rewrite evaluate_first_answer_run, evaluate_second_answer_run,
    evaluate_third_answer_run.
  destruct (evaluate_plot_run (PList l)
              (award (third_answer_points float_of_str (PList l))
                 (award (second_answer_points repr (PList l))
                    (award (first_answer_points (PList l)) self))))
    as [b ->].
  rewrite !award_award, !Z.add_assoc; fold (content_points repr float_of_str (PList l)).
  cbv zeta; unfold get_self, lift, ret.
  destruct (true_div _ _); reflexivity.
Qed.

Lemma content_points_range (result : pyval) :
  exists k, content_points repr float_of_str result = 2 * k /\ 0 <= k <= 10.
Proof.
  unfold content_points.
  destruct (plot_points_range result) as (k & -> & Hk).
  exists ((first_answer_points result + second_answer_points repr result
           + third_answer_points float_of_str result) / 2 + k).
  destruct (first_answer_points_range result) as [-> | ->],
    (second_answer_points_range repr result) as [-> | ->],
    (third_answer_points_range float_of_str result) as [-> | ->];
    Z.div_mod_to_equations; lia.
Qed.

(** The division of a score of at most 20 by 20 does not raise. *)
Lemma true_div_score (t : Z) :
  0 <= t <= 20 -> exists quotient, true_div t 20 = Ok quotient.
Proof.
  intros H.
  assert (E : exists n, (n <= 20)%nat /\ t = Z.of_nat n)
    by (exists (Z.to_nat t); lia).
  destruct E as (n & Hn & ->).
  do 21 (destruct n as [|n]; [vm_compute; eexists; reflexivity|]).
  lia.
Qed.

End RunFacts.

(** ** The plot check *)

Section PlotFacts.

Lemma marker_nonempty : marker <> [].
Proof. discriminate. Qed.

(** [points_earned] is the sum of the four contributions. *)
Lemma plot_points_by_criterion (result v : pyval) :
  getitem result 3 = Ok v ->
  plot_points result =
  criterion_points 0 v + criterion_points 1 v
  + criterion_points 2 v + criterion_points 3 v.
Proof.
  intros G; unfold plot_points, criterion_points, criterion_met; rewrite G.
  destruct (plot_criteria v) as [c|] eqn:E; [|reflexivity].
  destruct (plot_criteria_four _ _ E) as (b1 & b2 & b3 & b4 & ->).
  destruct b1, b2, b3, b4; reflexivity.
Qed.

(** [can_decode] looks at the text between the first marker and the
    next one. *)
Lemma can_decode_segment (s : str) :
  can_decode s =
  match find_first marker s with
  | Some (_, rest) => succeeds (b64decode (up_to marker rest))
  | None => false
  end.
Proof.
  unfold can_decode, contains.
  destruct (find_first marker s) as [[b a]|] eqn:F; [|reflexivity].
  rewrite (split_second marker s b a marker_nonempty F).
  destruct (b64decode (up_to marker a)); reflexivity.
Qed.

Lemma can_decode_segment_first (s before rest : str) :
  find_first marker s = Some (before, rest) ->
  can_decode s = succeeds (b64decode (up_to marker rest)).
Proof. intros F; rewrite can_decode_segment, F; reflexivity. Qed.

Lemma criterion_size (s : str) :
  criterion_met 2 (PStr s) =
  match encode_utf8 s with
  | Ok encoded => Z.of_nat (List.length encoded) <? 100000
  | Raise _ => false
  end.
Proof.
  unfold criterion_met, plot_criteria.
  destruct (encode_utf8 s); reflexivity.
Qed.

Lemma criterion_decode (s : str) :
  criterion_met 3 (PStr s) = succeeds (encode_utf8 s) && can_decode s.
Proof.
  unfold criterion_met, plot_criteria.
  destruct (encode_utf8 s); reflexivity.
Qed.

Lemma criterion_points_met (i : nat) (v : pyval) :
  criterion_points i v = 2 <-> criterion_met i v = true.
Proof.
  unfold criterion_points, points_per_criterion.
  destruct (criterion_met i v); split; intros; trivial; discriminate.
Qed.

Lemma criterion_points_unmet (i : nat) (v : pyval) :
  criterion_points i v = 0 <-> criterion_met i v = false.
Proof.
  unfold criterion_points, points_per_criterion.
  destruct (criterion_met i v); split; intros; trivial; discriminate.
Qed.

(** ASCII text is its own UTF-8 encoding. *)
Lemma encode_utf8_ascii (s : str) :
  Forall (fun c => (c < 128)%N) s -> encode_utf8 s = Ok s.
Proof.
  induction 1 as [|c s Hc _ IH]; simpl; [reflexivity|].
  unfold encode_utf8_cp; apply N.ltb_lt in Hc; rewrite Hc, IH; reflexivity.
Qed.

Lemma encode_utf8_repeat (c : codepoint) (n : nat) :
  (c < 128)%N -> encode_utf8 (repeat c n) = Ok (repeat c n).
Proof.
  intros Hc; apply encode_utf8_ascii.
  induction n; simpl; constructor; assumption.
Qed.

(** A text without a comma does not hold the marker. *)
Lemma no_comma_no_marker (s : str) :
  Forall (fun c => c <> 44%N) s -> find_first marker s = None.
Proof.
  intros H; destruct (find_first marker s) as [[b a]|] eqn:F; [|reflexivity].
  apply find_first_app in F; subst s.
  rewrite Forall_forall in H; exfalso; apply (H 44%N); [|reflexivity].
  apply in_or_app; right; apply in_or_app; left.
  vm_compute; tauto.
Qed.

End PlotFacts.

(** ** Exceptions inside a check *)

Section Containment.

Variable repr : pyval -> str.
Variable float_of_str : str -> option float.

(** When the body of a check raises, the check has added nothing. *)
Lemma first_answer_raise (result : pyval) (self self' : Evaluator) (e : exn) :
  first_answer_body result self = (Raise e, self') ->
  first_answer_points result = 0.
Proof.
  unfold first_answer_body, first_answer_points, bind, lift.
  destruct (getitem result 0) as [x|]; [|reflexivity].
  destruct (py_eq_1 x) eqn:E; [|reflexivity].
  destruct (print_value_run x self) as [[_ ->]|[Hp _]];
    [discriminate|rewrite (py_eq_1_printable _ E) in Hp; discriminate].
Qed.

Lemma second_answer_raise (result : pyval) (self self' : Evaluator) (e : exn) :
  second_answer_body repr result self = (Raise e, self') ->
  second_answer_points repr result = 0.
Proof.
  unfold second_answer_body, second_answer_points, bind, lift.
  destruct (getitem result 1) as [x|]; [|reflexivity].
  cbv beta iota.
  destruct (search_ignorecase (lit "titanic") (py_str repr x));
    [|reflexivity].
  destruct (print_value_run x self) as [[_ ->]|[-> _]];
    [discriminate|reflexivity].
Qed.

Lemma third_answer_raise (result : pyval) (self self' : Evaluator) (e : exn) :
  third_answer_body float_of_str result self = (Raise e, self') ->
  third_answer_points float_of_str result = 0.
Proof.
  unfold third_answer_body, third_answer_points, bind, lift.
  destruct (getitem result 2) as [x|]; [|reflexivity].
  cbv beta iota.
  destruct (py_float float_of_str x); [|reflexivity].
  destruct (PrimFloat.leb _ _); [discriminate|reflexivity].
Qed.

Lemma plot_raise (result : pyval) (self self' : Evaluator) (e : exn) :
  plot_body result self = (Raise e, self') -> plot_points result = 0.
Proof.
  unfold plot_body, plot_points, bind, lift.
  destruct (getitem result 3) as [v|]; [|reflexivity].
  cbv beta iota.
  destruct (plot_criteria v); [discriminate|reflexivity].
Qed.

(** What a check adds does not depend on the evaluator it runs on. *)
Lemma awarded_first (result : pyval) (self : Evaluator) :
  awarded (evaluate_first_answer result) self = first_answer_points result.
Proof.
  exact (awarded_award _ _ _ _ (evaluate_first_answer_run result self)).
Qed.

Lemma awarded_second (result : pyval) (self : Evaluator) :
  awarded (evaluate_second_answer repr result) self =
  second_answer_points repr result.
Proof.
  exact (awarded_award _ _ _ _ (evaluate_second_answer_run repr result self)).
Qed.

Lemma awarded_third (result : pyval) (self : Evaluator) :
  awarded (evaluate_third_answer float_of_str result) self =
  third_answer_points float_of_str result.
Proof.
  exact (awarded_award _ _ _ _
           (evaluate_third_answer_run float_of_str result self)).
Qed.

Lemma awarded_plot (result : pyval) (self : Evaluator) :
  awarded (evaluate_plot result) self = plot_points result.
Proof.
  destruct (evaluate_plot_run result self) as [b E].
  exact (awarded_award _ _ _ _ E).
Qed.

(** A run on a fresh evaluator that passes the gate completes. *)
Lemma fresh_run_completes (api_url : str) (result : pyval) :
  four_elements result = true ->
  exists quotient,
    run_evaluation repr float_of_str result (init api_url) =
    (Ok (completed_report result
           (award (content_points repr float_of_str result) (init api_url))
           quotient),
     award (content_points repr float_of_str result) (init api_url)).
Proof.
  intros F; rewrite (run_evaluation_accepted repr float_of_str result _ F).
  destruct (content_points_range repr float_of_str result) as (k & E & Hk).
  cbv zeta; set (cp := content_points repr float_of_str result) in *.
  change (total_score (award cp (init api_url))) with (0 + cp).
  change (max_score (award cp (init api_url))) with 20.
  rewrite Z.add_0_l.
  destruct (true_div_score cp) as [q ->]; [lia|].
  exists q; reflexivity.
Qed.

End Containment.

(** ** A well-formed data URI *)

(** The four sub-criteria hold for a data URI with the prefix, the
    marker, fewer than 100,000 bytes and a valid base64 text after the
    marker. *)
Lemma plot_criteria_data_uri (d before payload : str) (encoded : bytes) :
  startswith d (lit "data:image/") = true ->
  find_first marker d = Some (before, payload) ->
  encode_utf8 d = Ok encoded ->
  Z.of_nat (List.length encoded) < 100000 ->
  valid_base64 payload = true ->
  plot_criteria (PStr d) = Ok [true; true; true; true].
Proof.
  intros Hp Hf He Hn Hv; unfold plot_criteria.
  rewrite Hp, He, can_decode_segment; unfold contains; rewrite Hf.
  apply Z.ltb_lt in Hn; rewrite Hn.
  unfold up_to; rewrite no_comma_no_marker.
  - rewrite (b64decode_valid _ Hv); reflexivity.
  - eapply Forall_impl; [|exact (valid_base64_chars _ Hv)].
    intros c [_ Hc]; exact Hc.
Qed.

(** ** The points of the plot check, one sub-criterion at a time *)

(** What [evaluate_plot] adds for a string element 3 is the sum of what
    its four sub-criteria contribute. *)
Lemma awarded_plot_string (l : list pyval) (s : str) (self : Evaluator) :
  nth_error l 3 = Some (PStr s) ->
  awarded (evaluate_plot (PList l)) self =
  criterion_points 0 (PStr s) + criterion_points 1 (PStr s)
  + criterion_points 2 (PStr s) + criterion_points 3 (PStr s).
Proof.
  intros Hl; rewrite awarded_plot.
  apply plot_points_by_criterion.
  cbv beta iota delta [getitem]; rewrite Hl; reflexivity.
Qed.

Lemma criterion_points_cases (i : nat) (v : pyval) :
  criterion_points i v = 0 \/ criterion_points i v = 2.
Proof.
  unfold criterion_points, points_per_criterion.
  destruct (criterion_met i v); auto.
Qed.

(** * The claims *)

Set Warnings "-inexact-float".

(** C1 fails on the code: [total_score] is set in [__init__] only, so a
    second run on the same evaluator starts from the total of the
    first.  For the fetched submission [[1, "Titanic", 0.485782,
    "data:image/png;base64,AAAA"]] the first report has score 20 and
    100 percent, the second one score 40 and 200 percent. *)
Theorem rerun_accumulates_score
        (repr : pyval -> str) (float_of_str : str -> option float)
        (api_url : str) :
  let result :=
    PList [PInt 1; PStr (lit "Titanic"); PFloat 0.485782;
           PStr (lit "data:image/png;base64,AAAA")] in
  let self1 := award 20 (init api_url) in
  let self2 := award 20 self1 in
  let first := completed_report result self1 1 in
  let second := completed_report result self2 2 in
  run_evaluation repr float_of_str result (init api_url) = (Ok first, self1)
  /\ run_evaluation repr float_of_str result self1 = (Ok second, self2)
  /\ score first = 20 /\ percentage first = PFloat 100
  /\ score second = 40 /\ percentage second = PFloat 200
  /\ report_max_score second = 20
  /\ first <> second.
Proof.
  repeat split; try (vm_compute; reflexivity).
  intros H; apply (f_equal score) in H; vm_compute in H; discriminate H.
Qed.

(** C2, as amended: for a four-element submission whose element 3 is a
    string that holds the marker [base64,], the plot check adds the 2
    points of sub-criterion 4 to those of the other three sub-criteria
    exactly when the string has a UTF-8 encoding and the text between
    the first marker and the next one (the whole remainder when there
    is no other marker) decodes as base64; without the marker the plot
    check adds the points of the other three sub-criteria only. *)
Theorem plot_decode_criterion
        (l : list pyval) (s : str) (self : Evaluator) :
  nth_error l 3 = Some (PStr s) ->
  let others :=
    criterion_points 0 (PStr s) + criterion_points 1 (PStr s)
    + criterion_points 2 (PStr s) in
  (forall before rest,
      find_first marker s = Some (before, rest) ->
      (awarded (evaluate_plot (PList l)) self = others + 2 <->
       succeeds (encode_utf8 s) = true /\
       succeeds (b64decode (up_to marker rest)) = true)
      /\ (awarded (evaluate_plot (PList l)) self = others + 2
          \/ awarded (evaluate_plot (PList l)) self = others))
  /\ (contains marker s = false ->
      awarded (evaluate_plot (PList l)) self = others).
Proof.
  intros Hl others; subst others.
  rewrite (awarded_plot_string l s self Hl).
  split.
  - intros before rest F; split.
    + rewrite <- andb_true_iff.
      rewrite <- (can_decode_segment_first s before rest F).
      rewrite <- criterion_decode, <- criterion_points_met.
      split; intros H; lia.
    + destruct (criterion_points_cases 3 (PStr s)) as [E|E]; rewrite E; lia.
  - unfold contains; intros H.
    assert (E : criterion_points 3 (PStr s) = 0).
    { rewrite criterion_points_unmet, criterion_decode, can_decode_segment.
      destruct (find_first marker s); [discriminate|apply andb_false_r]. }
    rewrite E; lia.
Qed.

Lemma plot_decode_criterion_witness :
  awarded (evaluate_plot
             (PList [PInt 1; PStr (lit "Titanic"); PFloat 0.485782;
                     PStr (lit "data:image/png;base64,AAAAbase64,")]))
          (init []) = 8
  /\ awarded (evaluate_plot
                (PList [PInt 1; PStr (lit "Titanic"); PFloat 0.485782;
                        PStr (lit "not-a-data-uri")]))
             (init []) = 2.
Proof.
  split.
  - destruct (proj1 (plot_decode_criterion
                       [PInt 1; PStr (lit "Titanic"); PFloat 0.485782;
                        PStr (lit "data:image/png;base64,AAAAbase64,")]
                       (lit "data:image/png;base64,AAAAbase64,")
                       (init []) eq_refl)
                (lit "data:image/png;") (lit "AAAAbase64,") eq_refl)
      as [[_ H] _].
    rewrite H; [reflexivity|split; reflexivity].
  - rewrite (proj2 (plot_decode_criterion
                      [PInt 1; PStr (lit "Titanic"); PFloat 0.485782;
                       PStr (lit "not-a-data-uri")]
                      (lit "not-a-data-uri") (init []) eq_refl) eq_refl).
    reflexivity.
Defined.

(** C2, as stated, fails.  In [[1, "Titanic", 0.485782,
    "data:image/png;base64,Abase64,A"]] the whole remainder [Abase64,A]
    decodes, but the check decodes [A] only, which does not: the plot
    check adds the 6 points of the other three sub-criteria and not the
    2 points of the fourth.  And with a lone surrogate in front of
    [data:image/png;base64,AAAA] the plot check adds nothing although
    the text after the marker decodes. *)
Lemma plot_decode_not_whole_remainder :
  ~ (forall (l : list pyval) (s before rest : str) (self : Evaluator),
        nth_error l 3 = Some (PStr s) ->
        find_first marker s = Some (before, rest) ->
        (awarded (evaluate_plot (PList l)) self
         = criterion_points 0 (PStr s) + criterion_points 1 (PStr s)
           + criterion_points 2 (PStr s) + 2
         <-> succeeds (b64decode rest) = true))
  /\ (let s := 0xD800%N :: lit "data:image/png;base64,AAAA" in
      find_first marker s
      = Some (0xD800%N :: lit "data:image/png;", lit "AAAA")
      /\ succeeds (b64decode (lit "AAAA")) = true
      /\ awarded (evaluate_plot
                    (PList [PInt 1; PStr (lit "Titanic"); PFloat 0.485782;
                            PStr s]))
                 (init []) = 0).
Proof.
  split; [|repeat split].
  intros H.
  specialize (H [PInt 1; PStr (lit "Titanic"); PFloat 0.485782;
                 PStr (lit "data:image/png;base64,Abase64,A")]
                (lit "data:image/png;base64,Abase64,A")
                (lit "data:image/png;") (lit "Abase64,A") (init [])
                eq_refl eq_refl).
  destruct H as [_ H]; specialize (H eq_refl).
  vm_compute in H; discriminate H.
Qed.

(** C3: a decoded submission that is not an array of exactly four
    elements is rejected by the structural gate; the run is then the
    early return, so no content check touches the evaluator, and the
    report has score 0 and [success = false]. *)
Theorem structural_gate_rejects
        (repr : pyval -> str) (float_of_str : str -> option float)
        (result : pyval) (self : Evaluator) :
  (forall l, result = PList l -> List.length l <> 4%nat) ->
  snd (evaluate_structure result) = false
  /\ exists report,
      run_evaluation repr float_of_str result self = (Ok report, self)
      /\ score report = 0 /\ success report = false
      /\ response report = None.
Proof.
  intros H.
  assert (F : four_elements result = false).
  { destruct result; try reflexivity; simpl.
    apply Nat.eqb_neq; apply H; reflexivity. }
  split; [rewrite evaluate_structure_four; exact F|].
  rewrite (run_evaluation_rejected repr float_of_str result self F).
  eexists; split; [reflexivity|].
  destruct result; repeat split.
Qed.

Lemma structural_gate_rejects_witness :
  snd (evaluate_structure (PList [PInt 1; PInt 2; PInt 3])) = false
  /\ exists report,
      run_evaluation (fun _ => []) (fun _ => None)
        (PList [PInt 1; PInt 2; PInt 3]) (init []) = (Ok report, init [])
      /\ score report = 0 /\ success report = false
      /\ response report = None.
Proof.
  apply (structural_gate_rejects (fun _ => []) (fun _ => None)
           (PList [PInt 1; PInt 2; PInt 3]) (init [])).
  intros l [= <-]; simpl; lia.
Defined.

(** C4, as amended: when the structural gate fails, the report is the
    same for both shapes of failure, with score 0, [success = false] and
    the fixed text "Failed structural validation - not a 4-element
    array"; a value that is not an array and an array of length N are
    told apart only by the line the gate prints. *)
Theorem structural_failure_diagnostics
        (repr : pyval -> str) (float_of_str : str -> option float)
        (result : pyval) (self : Evaluator) :
  result <> PNone ->
  snd (evaluate_structure result) = false ->
  run_evaluation repr float_of_str result self =
  (Ok (structural_failure_report self), self)
  /\ (forall l, result = PList l ->
        nth_error (fst (evaluate_structure result)) 1 =
        Some (CROSS :: lit " Array has "
                ++ str_of_Z (Z.of_nat (List.length l))
                ++ lit " elements, expected 4"))
  /\ ((forall l, result <> PList l) ->
        nth_error (fst (evaluate_structure result)) 1 =
        Some (CROSS :: lit " Response is not an array"))
  /\ (forall n : Z,
        CROSS :: lit " Array has " ++ str_of_Z n
          ++ lit " elements, expected 4"
        <> CROSS :: lit " Response is not an array").
Proof.
  intros Hn Hs; repeat split.
  - rewrite evaluate_structure_four in Hs.
    rewrite (run_evaluation_rejected repr float_of_str result self Hs).
    destruct result; try reflexivity; contradiction.
  - intros l ->; simpl in Hs |- *.
    destruct (Nat.eqb (List.length l) 4); [discriminate|reflexivity].
  - intros H; destruct result; try reflexivity.
    exfalso; exact (H l eq_refl).
  - intros n; simpl; discriminate.
Qed.

Lemma structural_failure_diagnostics_witness :
  run_evaluation (fun _ => []) (fun _ => None) (PDict []) (init []) =
  (Ok (structural_failure_report (init [])), init [])
  /\ run_evaluation (fun _ => []) (fun _ => None)
       (PList [PInt 1; PInt 2; PInt 3]) (init []) =
     (Ok (structural_failure_report (init [])), init []).
Proof.
  split.
  - apply (structural_failure_diagnostics (fun _ => []) (fun _ => None)
             (PDict []) (init []));
      [discriminate|reflexivity].
  - apply (structural_failure_diagnostics (fun _ => []) (fun _ => None)
             (PList [PInt 1; PInt 2; PInt 3]) (init []));
      [discriminate|reflexivity].
Defined.

(** C4, as stated, fails: the report of an object and the report of a
    three-element array carry the same diagnostic. *)
Lemma structural_failure_same_details :
  ~ (forall (repr : pyval -> str) (float_of_str : str -> option float)
            (v : pyval) (l : list pyval) (self : Evaluator)
            (r1 r2 : Report),
        v <> PNone -> (forall l', v <> PList l') ->
        List.length l <> 4%nat ->
        run_evaluation repr float_of_str v self = (Ok r1, self) ->
        run_evaluation repr float_of_str (PList l) self = (Ok r2, self) ->
        details r1 <> details r2).
Proof.
  intros H.
  apply (H (fun _ => []) (fun _ => None) (PDict [])
           [PInt 1; PInt 2; PInt 3] (init [])
           (structural_failure_report (init []))
           (structural_failure_report (init [])));
    try reflexivity; discriminate.
Qed.

(** C5: the submission [[2, "Unknown", 0.9, d]], where [d] is a data
    URI with the prefix [data:image/], the marker [base64,], fewer than
    100,000 bytes of UTF-8 and a valid base64 text after the marker,
    scores exactly 8 of 20: each scalar check awards 0 and the plot
    check awards 8, whatever the evaluator each check runs on. *)
Theorem wrong_scalars_valid_plot
        (repr : pyval -> str) (float_of_str : str -> option float)
        (api_url : str) (d before payload : str) (encoded : bytes) :
  startswith d (lit "data:image/") = true ->
  find_first marker d = Some (before, payload) ->
  encode_utf8 d = Ok encoded ->
  Z.of_nat (List.length encoded) < 100000 ->
  valid_base64 payload = true ->
  let result :=
    PList [PInt 2; PStr (lit "Unknown"); PFloat 0.9; PStr d] in
  (exists report self',
      run_evaluation repr float_of_str result (init api_url)
      = (Ok report, self')
      /\ score report = 8 /\ report_max_score report = 20)
  /\ (forall self,
         awarded (evaluate_first_answer result) self = 0
         /\ awarded (evaluate_second_answer repr result) self = 0
         /\ awarded (evaluate_third_answer float_of_str result) self = 0
         /\ awarded (evaluate_plot result) self = 8).
Proof.
  intros Hp Hf He Hn Hv result.
  assert (P1 : first_answer_points result = 0) by reflexivity.
  assert (P2 : second_answer_points repr result = 0) by reflexivity.
  assert (P3 : third_answer_points float_of_str result = 0) by reflexivity.
  assert (P4 : plot_points result = 8).
  { unfold plot_points, result; cbv beta iota delta [getitem nth_error].
    rewrite (plot_criteria_data_uri d before payload encoded Hp Hf He Hn Hv).
    reflexivity. }
  split.
  - destruct (fresh_run_completes repr float_of_str api_url result eq_refl)
      as [q ->].
    do 2 eexists; split; [reflexivity|].
    unfold content_points; rewrite P1, P2, P3, P4.
    split; reflexivity.
  - intros self.
    rewrite awarded_first, awarded_second, awarded_third, awarded_plot.
    auto.
Qed.

Lemma wrong_scalars_valid_plot_witness :
  exists report self',
    run_evaluation (fun _ => []) (fun _ => None)
      (PList [PInt 2; PStr (lit "Unknown"); PFloat 0.9;
              PStr (lit "data:image/png;base64,iVBORw0KGgo=")])
      (init (lit "http://localhost:8000/api/")) = (Ok report, self')
    /\ score report = 8 /\ report_max_score report = 20.
Proof.
  apply (proj1 (wrong_scalars_valid_plot
                  (fun _ => []) (fun _ => None)
                  (lit "http://localhost:8000/api/")
                  (lit "data:image/png;base64,iVBORw0KGgo=")
                  (lit "data:image/png;") (lit "iVBORw0KGgo=")
                  (lit "data:image/png;base64,iVBORw0KGgo=")
                  eq_refl eq_refl eq_refl eq_refl eq_refl)).
Defined.

(** C6: for a four-element submission whose element 3 is a string, the
    plot check adds the 2 points of sub-criterion 3 to those of the
    other three sub-criteria exactly when the UTF-8 encoding of the
    string is shorter than 100,000 bytes; 99,999 bytes earn the 2
    points and 100,000 bytes do not. *)
Theorem plot_size_criterion
        (l : list pyval) (s : str) (self : Evaluator) :
  nth_error l 3 = Some (PStr s) ->
  let others :=
    criterion_points 0 (PStr s) + criterion_points 1 (PStr s)
    + criterion_points 3 (PStr s) in
  (awarded (evaluate_plot (PList l)) self = others + 2 <->
   exists encoded,
     encode_utf8 s = Ok encoded /\ Z.of_nat (List.length encoded) < 100000)
  /\ (awarded (evaluate_plot (PList l)) self = others + 2
      \/ awarded (evaluate_plot (PList l)) self = others)
  /\ (forall encoded,
         encode_utf8 s = Ok encoded ->
         Z.of_nat (List.length encoded) = 99999 ->
         awarded (evaluate_plot (PList l)) self = others + 2)
  /\ (forall encoded,
         encode_utf8 s = Ok encoded ->
         Z.of_nat (List.length encoded) = 100000 ->
         awarded (evaluate_plot (PList l)) self = others).
Proof.
  intros Hl others; subst others.
  rewrite (awarded_plot_string l s self Hl).
  assert (M : criterion_points 2 (PStr s) = 2 <->
              exists encoded,
                encode_utf8 s = Ok encoded
                /\ Z.of_nat (List.length encoded) < 100000).
  { rewrite criterion_points_met, criterion_size; split.
    - destruct (encode_utf8 s) as [e|]; [|discriminate].
      intros H; exists e; split; [reflexivity|].
      apply Z.ltb_lt in H; exact H.
    - intros (e & E & H); rewrite E; apply Z.ltb_lt; exact H. }
  split; [|split; [|split]].
  - rewrite <- M; split; intros H; lia.
  - destruct (criterion_points_cases 2 (PStr s)) as [E|E]; rewrite E; lia.
  - intros e E H.
    assert (P : criterion_points 2 (PStr s) = 2)
      by (apply M; exists e; split; [exact E|lia]).
    rewrite P; lia.
  - intros e E H.
    assert (P : criterion_points 2 (PStr s) = 0).
    { rewrite criterion_points_unmet, criterion_size, E, H; reflexivity. }
    rewrite P; lia.
Qed.

Lemma plot_size_criterion_witness :
  (let s := repeat 65%N (Z.to_nat 99999) in
   awarded (evaluate_plot
              (PList [PInt 1; PStr (lit "Titanic"); PFloat 0.485782; PStr s]))
           (init [])
   = criterion_points 0 (PStr s) + criterion_points 1 (PStr s)
     + criterion_points 3 (PStr s) + 2)
  /\ (let s := repeat 65%N (Z.to_nat 100000) in
      awarded (evaluate_plot
                 (PList [PInt 1; PStr (lit "Titanic"); PFloat 0.485782;
                         PStr s]))
              (init [])
      = criterion_points 0 (PStr s) + criterion_points 1 (PStr s)
        + criterion_points 3 (PStr s)).
Proof.
  split; cbv zeta.
  - apply (proj1 (proj2 (proj2 (plot_size_criterion
                                  [PInt 1; PStr (lit "Titanic");
                                   PFloat 0.485782;
                                   PStr (repeat 65%N (Z.to_nat 99999))]
                                  (repeat 65%N (Z.to_nat 99999))
                                  (init []) eq_refl)))
             (repeat 65%N (Z.to_nat 99999))).
    + apply encode_utf8_repeat; reflexivity.
    + rewrite repeat_length; apply Z2Nat.id; discriminate.
  - apply (proj2 (proj2 (proj2 (plot_size_criterion
                                  [PInt 1; PStr (lit "Titanic");
                                   PFloat 0.485782;
                                   PStr (repeat 65%N (Z.to_nat 100000))]
                                  (repeat 65%N (Z.to_nat 100000))
                                  (init []) eq_refl)))
             (repeat 65%N (Z.to_nat 100000))).
    + apply encode_utf8_repeat; reflexivity.
    + rewrite repeat_length; apply Z2Nat.id; discriminate.
Defined.

(** C7, as amended: for a four-element submission, check A gives its 4
    points exactly when element 0 compares equal to 1 with Python's
    [==], and nothing otherwise; the values equal to 1 are the integer
    1, the boolean [true] and a float equal to 1.0.  There is no
    tolerance. *)
Theorem first_answer_check (l : list pyval) (x : pyval) (self : Evaluator) :
  List.length l = 4%nat -> nth_error l 0 = Some x ->
  (awarded (evaluate_first_answer (PList l)) self = 4 <-> py_eq_1 x = true)
  /\ (awarded (evaluate_first_answer (PList l)) self = 0
      <-> py_eq_1 x = false)
  /\ (py_eq_1 x = true <->
      x = PInt 1 \/ x = PBool true
      \/ exists f, x = PFloat f /\ PrimFloat.eqb f 1 = true).
Proof.
  intros _ Hx.
  rewrite (awarded_award _ _ _ _ (evaluate_first_answer_run (PList l) self)).
  cbv beta iota delta [first_answer_points getitem]; rewrite Hx.
  repeat split.
  - destruct (py_eq_1 x); [reflexivity|discriminate].
  - intros ->; reflexivity.
  - destruct (py_eq_1 x); [discriminate|reflexivity].
  - intros ->; reflexivity.
  - destruct x; simpl; try discriminate.
    + destruct b; [auto|discriminate].
    + intros H; apply Z.eqb_eq in H; subst; auto.
    + intros H; right; right; exists f; auto.
  - intros [-> |[-> |(f & -> & H)]]; trivial.
Qed.

Lemma first_answer_check_witness :
  awarded (evaluate_first_answer
             (PList [PFloat 1; PStr (lit "Titanic"); PFloat 0.485782;
                     PStr (lit "data:image/png;base64,AAAA")]))
          (init []) = 4.
Proof.
  apply (proj1 (first_answer_check
                  [PFloat 1; PStr (lit "Titanic"); PFloat 0.485782;
                   PStr (lit "data:image/png;base64,AAAA")]
                  (PFloat 1) (init []) eq_refl eq_refl)).
  reflexivity.
Defined.

(** C7, as stated, fails: the submission [[true, "Titanic", 0.485782,
    "data:image/png;base64,AAAA"]] earns the 4 points of check A, and
    its element 0 is not the integer 1. *)
Lemma first_answer_accepts_true :
  ~ (forall (l : list pyval) (x : pyval) (self : Evaluator),
        List.length l = 4%nat -> nth_error l 0 = Some x ->
        (awarded (evaluate_first_answer (PList l)) self = 4
         <-> x = PInt 1)).
Proof.
  intros H.
  specialize (H [PBool true; PStr (lit "Titanic"); PFloat 0.485782;
                 PStr (lit "data:image/png;base64,AAAA")]
                (PBool true) (init []) eq_refl eq_refl).
  destruct H as [H _]; specialize (H eq_refl); discriminate H.
Qed.

(** C8, as amended: for a four-element submission run on a fresh
    evaluator, no exception leaves the run: a report is returned, with
    [success = true], the fixed text "Evaluation completed successfully"
    and a score that is the sum of what the four checks award, each of
    them whatever the others did.  A check whose body raises (wrong
    type, text that is not a number, text without an encoding) awards
    nothing.  A base64 text that does not decode is caught inside the
    plot check and only costs sub-criterion 4: the plot check still
    awards the points of the other three sub-criteria.  No failure is
    written to the details of the report. *)
Theorem check_failures_contained
        (repr : pyval -> str) (float_of_str : str -> option float)
        (api_url : str) (l : list pyval) :
  List.length l = 4%nat ->
  let result := PList l in
  (exists report self',
      run_evaluation repr float_of_str result (init api_url)
      = (Ok report, self')
      /\ success report = true
      /\ details report = "Evaluation completed successfully"%string
      /\ forall s1 s2 s3 s4 : Evaluator,
          score report =
          awarded (evaluate_first_answer result) s1
          + awarded (evaluate_second_answer repr result) s2
          + awarded (evaluate_third_answer float_of_str result) s3
          + awarded (evaluate_plot result) s4)
  /\ (forall self e self',
         first_answer_body result self = (Raise e, self') ->
         awarded (evaluate_first_answer result) self = 0)
  /\ (forall self e self',
         second_answer_body repr result self = (Raise e, self') ->
         awarded (evaluate_second_answer repr result) self = 0)
  /\ (forall self e self',
         third_answer_body float_of_str result self = (Raise e, self') ->
         awarded (evaluate_third_answer float_of_str result) self = 0)
  /\ (forall self e self',
         plot_body result self = (Raise e, self') ->
         awarded (evaluate_plot result) self = 0)
  /\ (forall s before rest e self,
         nth_error l 3 = Some (PStr s) ->
         find_first marker s = Some (before, rest) ->
         b64decode (up_to marker rest) = Raise e ->
         awarded (evaluate_plot result) self =
         criterion_points 0 (PStr s) + criterion_points 1 (PStr s)
         + criterion_points 2 (PStr s)).
Proof.
  intros Hl result.
  assert (F : four_elements result = true)
    by (simpl; rewrite Hl; reflexivity).
  split; [|repeat split].
  - destruct (fresh_run_completes repr float_of_str api_url result F)
      as [q ->].
    do 2 eexists; split; [reflexivity|].
    split; [reflexivity|]; split; [reflexivity|].
    intros s1 s2 s3 s4.
    rewrite awarded_first, awarded_second, awarded_third, awarded_plot.
    reflexivity.
  - intros self e self' H; rewrite awarded_first.
    exact (first_answer_raise _ _ _ _ H).
  - intros self e self' H; rewrite awarded_second.
    exact (second_answer_raise _ _ _ _ _ H).
  - intros self e self' H; rewrite awarded_third.
    exact (third_answer_raise _ _ _ _ _ H).
  - intros self e self' H; rewrite awarded_plot.
    exact (plot_raise _ _ _ _ H).
  - intros s before rest e self Hs Hf Hd.
    rewrite awarded_plot, (plot_points_by_criterion result (PStr s)).
    + assert (E : criterion_points 3 (PStr s) = 0).
      { rewrite criterion_points_unmet, criterion_decode,
          can_decode_segment, Hf, Hd.
        apply andb_false_r. }
      rewrite E; lia.
    + unfold result; cbv beta iota delta [getitem]; rewrite Hs; reflexivity.
Qed.

Lemma check_failures_contained_witness :
  exists report self',
    run_evaluation (fun _ => []) (fun _ => None)
      (PList [PStr (lit "one"); PNone; PStr (lit "abc"); PInt 7])
      (init []) = (Ok report, self')
    /\ success report = true
    /\ details report = "Evaluation completed successfully"%string
    /\ score report = 0.
Proof.
  destruct (proj1 (check_failures_contained (fun _ => []) (fun _ => None) []
                     [PStr (lit "one"); PNone; PStr (lit "abc"); PInt 7]
                     eq_refl))
    as (report & self' & Hrun & Hs & Hd & Hscore).
  exists report, self'; repeat split; trivial.
  rewrite (Hscore (init []) (init []) (init []) (init [])).
  vm_compute; reflexivity.
Defined.

(** C8, as stated, fails twice.  In [[1, "Titanic", 0.485782,
    "data:image/png;base64,A"]] the base64 text [A] does not decode,
    yet the plot check awards 6 points, not 0.  In [[1, "Titanic",
    "abc", "data:image/png;base64,AAAA"]] the third check raises on
    [float("abc")], yet the details of the report are those of a run
    without any failure. *)
Lemma check_failure_claims_fail :
  ~ (forall (l : list pyval) (s before rest : str) (e : exn)
            (self : Evaluator),
        List.length l = 4%nat -> nth_error l 3 = Some (PStr s) ->
        find_first marker s = Some (before, rest) ->
        b64decode rest = Raise e ->
        awarded (evaluate_plot (PList l)) self = 0)
  /\ ~ (forall (repr : pyval -> str) (float_of_str : str -> option float)
               (l : list pyval) (self self' self'' : Evaluator) (e : exn)
               (report : Report),
           List.length l = 4%nat ->
           third_answer_body float_of_str (PList l) self = (Raise e, self') ->
           run_evaluation repr float_of_str (PList l) self
           = (Ok report, self'') ->
           details report <> "Evaluation completed successfully"%string).
Proof.
  split; intros H.
  - specialize (H [PInt 1; PStr (lit "Titanic"); PFloat 0.485782;
                   PStr (lit "data:image/png;base64,A")]
                  (lit "data:image/png;base64,A")
                  (lit "data:image/png;") (lit "A") BinasciiError (init [])
                  eq_refl eq_refl eq_refl eq_refl).
    vm_compute in H; discriminate H.
  - apply (H (fun _ => []) (fun _ => None)
             [PInt 1; PStr (lit "Titanic"); PStr (lit "abc");
              PStr (lit "data:image/png;base64,AAAA")]
             (init []) (init []) (award 16 (init []))
             ValueError
             (completed_report
                (PList [PInt 1; PStr (lit "Titanic"); PStr (lit "abc");
                        PStr (lit "data:image/png;base64,AAAA")])
                (award 16 (init [])) 0.8));
      vm_compute; reflexivity.
Qed.

(** C9: a single run on a freshly constructed evaluator returns a
    report, and its score is an even integer between 0 and 20. *)
Theorem fresh_score_even_bounded
        (repr : pyval -> str) (float_of_str : str -> option float)
        (api_url : str) (result : pyval) :
  exists report self',
    run_evaluation repr float_of_str result (init api_url)
    = (Ok report, self')
    /\ Z.Even (score report) /\ 0 <= score report <= 20.
Proof.
  destruct (four_elements result) eqn:F.
  - rewrite (run_evaluation_accepted repr float_of_str result _ F).
    destruct (content_points_range repr float_of_str result)
      as (k & E & Hk).
    cbv zeta; unfold award, init; cbn [total_score max_score].
    rewrite E, Z.add_0_l.
    destruct (true_div_score (2 * k)) as [q ->]; [lia|].
    do 2 eexists; split; [reflexivity|]; cbn [score completed_report
                                                 total_score].
    split; [exists k; reflexivity|lia].
  - rewrite (run_evaluation_rejected repr float_of_str result _ F).
    do 2 eexists; split; [reflexivity|].
    destruct result; simpl; (split; [exists 0; reflexivity|lia]).
Qed.

(** C10: there is a four-element submission whose element 3 has, after
    the marker, no character of the base64 alphabet, and to which the
    plot check still adds the 2 points of sub-criterion 4: for
    [data:image/png;base64,!!!] the decoder skips the three characters
    and returns the empty byte string, and the plot check adds 8 points,
    6 for the other three sub-criteria and 2 for the fourth. *)
Theorem garbage_payload_decodes :
  exists (l : list pyval) (s payload : str),
    nth_error l 3 = Some (PStr s)
    /\ find_first marker s = Some (lit "data:image/png;", payload)
    /\ payload = lit "!!!"
    /\ Forall (fun c => in_alphabet c = false) payload
    /\ b64decode payload = Ok []
    /\ forall self : Evaluator,
        awarded (evaluate_plot (PList l)) self = 8
        /\ awarded (evaluate_plot (PList l)) self
           = criterion_points 0 (PStr s) + criterion_points 1 (PStr s)
             + criterion_points 2 (PStr s) + 2.
Proof.
  exists [PInt 1; PStr (lit "Titanic"); PFloat 0.485782;
          PStr (lit "data:image/png;base64,!!!")],
    (lit "data:image/png;base64,!!!"), (lit "!!!").
  split; [reflexivity|]; split; [reflexivity|]; split; [reflexivity|].
  split; [repeat constructor|]; split; [reflexivity|].
  intros self; rewrite awarded_plot; split; reflexivity.
Qed.

Set Warnings "inexact-float".

(** * Further properties of the evaluator *)

(** ** Check B: the search for the title *)

Section SearchFacts.

Lemma match_here_spec (pat s : str) :
  match_here pat s = true <->
  exists t r, s = t ++ r /\ Forall2 letter_matches pat t.
Proof.
  revert s; induction pat as [|p pat IH]; intros s; simpl.
  - split; [intros _; exists [], s; split; [reflexivity|constructor]|trivial].
  - destruct s as [|c s].
    + split; [discriminate|].
      intros (t & r & Hs & Ht); inversion Ht; subst; discriminate.
    + rewrite andb_true_iff, IH; split.
      * intros (Hc & t & r & -> & Ht).
        exists (c :: t), r; split; [reflexivity|constructor; assumption].
      * intros (t & r & Hs & Ht); inversion Ht as [|? c' ? t' Hc Ht']; subst.
        injection Hs as -> ->; split; [exact Hc|].
        exists t', r; split; [reflexivity|assumption].
Qed.

(** [re.search] finds the pattern exactly when some piece of the text
    matches it letter by letter. *)
Lemma search_ignorecase_spec (pat s : str) :
  search_ignorecase pat s = true <->
  exists a t b, s = a ++ t ++ b /\ Forall2 letter_matches pat t.
Proof.
  induction s as [|c s IH]; simpl; rewrite orb_true_iff, match_here_spec.
  - split.
    + intros [(t & r & Hs & Ht)|H]; [|discriminate].
      exists [], t, r; split; assumption.
    + intros (a & t & b & Hs & Ht); left.
      destruct a; [|discriminate]; exists t, b; split; assumption.
  - rewrite IH; split.
    + intros [(t & r & Hs & Ht)|(a & t & b & -> & Ht)].
      * exists [], t, r; split; assumption.
      * exists (c :: a), t, b; split; [reflexivity|assumption].
    + intros (a & t & b & Hs & Ht); destruct a as [|c' a]; simpl in Hs.
      * left; exists t, b; split; assumption.
      * injection Hs as -> ->; right; exists a, t, b; split; trivial.
Qed.

(** The decimal text of an integer has digits and a sign only. *)
Lemma str_of_Z_chars (z : Z) :
  Forall (fun c => c = 45%N \/ (48 <= c <= 57)%N) (str_of_Z z).
Proof.
  assert (U : forall d, Forall (fun c => c = 45%N \/ (48 <= c <= 57)%N)
                          (lit (NilEmpty.string_of_uint d))).
  { induction d; simpl; constructor; trivial; right; cbv; split; discriminate. }
  unfold str_of_Z, NilZero.string_of_int.
  destruct (Z.to_int z) as [d|d]; unfold NilZero.string_of_uint.
  - destruct d; try apply U.
    constructor; [right; cbv; split; discriminate|constructor].
  - change (lit (String "-" ?s)) with (45%N :: lit s).
    constructor; [left; reflexivity|].
    destruct d; try apply U.
    constructor; [right; cbv; split; discriminate|constructor].
Qed.

(** A text without the letter t, in either case, does not match. *)
Lemma search_needs_t (s : str) :
  Forall (fun c => c <> 116%N /\ c <> 84%N) s ->
  search_ignorecase (lit "titanic") s = false.
Proof.
  intros H; apply not_true_is_false; intros Hs.
  apply search_ignorecase_spec in Hs as (a & t & b & -> & Ht).
  inversion Ht as [|p c pat' t' Hc _]; subst.
  apply Forall_app in H as [_ H]; apply Forall_app in H as [H _].
  inversion H as [|? ? [H1 H2] _]; subst.
  unfold letter_matches, matches_ignorecase in Hc.
  destruct (N.eqb_spec c 116); [contradiction|].
  destruct (N.eqb_spec c (116 - 32)); [contradiction|].
  discriminate Hc.
Qed.

End SearchFacts.

Set Warnings "-inexact-float".

(** X1: for a string element 1 that can be printed, check B gives its 4
    points exactly when some seven consecutive characters match
    [titanic] letter by letter, each in either case (for [i] also the
    dotted capital and the dotless small letter); otherwise it gives
    nothing. *)
Theorem second_answer_check
        (repr : pyval -> str) (l : list pyval) (s : str) (self : Evaluator) :
  nth_error l 1 = Some (PStr s) ->
  printable (PStr s) = true ->
  (awarded (evaluate_second_answer repr (PList l)) self = 4 <->
   exists a t b,
     s = a ++ t ++ b /\
     Forall2 letter_matches (lit "titanic") t)
  /\ (awarded (evaluate_second_answer repr (PList l)) self = 4
      \/ awarded (evaluate_second_answer repr (PList l)) self = 0).
Proof.
  intros Hs Hp.
  rewrite awarded_second, <- search_ignorecase_spec.
  unfold second_answer_points.
  cbv beta iota delta [getitem]; rewrite Hs, Hp, andb_true_r.
  cbv beta iota delta [py_str].
  destruct (search_ignorecase (lit "titanic") s); split; auto.
  - split; trivial.
  - split; discriminate.
Qed.

Lemma second_answer_check_witness :
  awarded (evaluate_second_answer (fun _ => [])
             (PList [PInt 1; PStr (lit "The TiTaNiC story"); PFloat 0.4855;
                     PStr (lit "data:image/png;base64,AAAA")]))
          (init []) = 4.
Proof.
  apply (proj1 (second_answer_check (fun _ => [])
                  [PInt 1; PStr (lit "The TiTaNiC story"); PFloat 0.4855;
                   PStr (lit "data:image/png;base64,AAAA")]
                  (lit "The TiTaNiC story") (init []) eq_refl eq_refl)).
  exists (lit "The "), (lit "TiTaNiC"), (lit " story").
  split; [reflexivity|repeat constructor].
Defined.

(** X2: check B gives nothing when element 1 is null, a boolean or an
    integer: the text [str()] makes of it ([None], [True], [False], or
    decimal digits with a sign) does not hold the title. *)
Theorem second_answer_rejects_scalars
        (repr : pyval -> str) (l : list pyval) (x : pyval) (self : Evaluator) :
  nth_error l 1 = Some x ->
  x = PNone \/ (exists b, x = PBool b) \/ (exists z, x = PInt z) ->
  awarded (evaluate_second_answer repr (PList l)) self = 0.
Proof.
  intros Hx Hk; rewrite awarded_second; unfold second_answer_points.
  cbv beta iota delta [getitem]; rewrite Hx.
  assert (E : search_ignorecase (lit "titanic") (py_str repr x) = false).
  { destruct Hk as [-> |[[[|] ->]|[z ->]]]; try reflexivity.
    apply search_needs_t; simpl py_str.
    eapply Forall_impl; [|exact (str_of_Z_chars z)].
    intros c [-> |[H1 H2]]; split; try discriminate; intros ->;
      revert H1 H2; cbv; intros H1 H2;
      try (apply H1; reflexivity); try (apply H2; reflexivity). }
  rewrite E; reflexivity.
Qed.

Lemma second_answer_rejects_scalars_witness :
  awarded (evaluate_second_answer (fun _ => [])
             (PList [PInt 1; PInt 1997; PFloat 0.4855;
                     PStr (lit "data:image/png;base64,AAAA")]))
          (init []) = 0.
Proof.
  apply (second_answer_rejects_scalars (fun _ => [])
           [PInt 1; PInt 1997; PFloat 0.4855;
            PStr (lit "data:image/png;base64,AAAA")]
           (PInt 1997) (init []) eq_refl).
  right; right; exists 1997; reflexivity.
Defined.

(** X3: check C gives nothing, and does not raise, when [float()]
    cannot convert element 2 (null, an array, an object, a text that is
    not a number) and when element 2 is a boolean. *)
Theorem third_answer_rejects
        (float_of_str : str -> option float)
        (l : list pyval) (x : pyval) (self : Evaluator) :
  nth_error l 2 = Some x ->
  x = PNone \/ (exists b, x = PBool b) \/ (exists l', x = PList l')
  \/ (exists d, x = PDict d)
  \/ (exists s, x = PStr s /\ float_of_str s = None) ->
  evaluate_third_answer float_of_str (PList l) self = (Ok false, self).
Proof.
  intros Hx Hk; rewrite evaluate_third_answer_run.
  assert (E : third_answer_points float_of_str (PList l) = 0).
  { unfold third_answer_points; cbv beta iota delta [getitem]; rewrite Hx.
    destruct Hk as [-> |[[[|] ->]|[[l' ->]|[[d ->]|(s & -> & Hs)]]]];
      try reflexivity.
    simpl; rewrite Hs; reflexivity. }
  rewrite E, award_0; reflexivity.
Qed.

Lemma third_answer_rejects_witness :
  evaluate_third_answer (fun _ => None)
    (PList [PInt 1; PStr (lit "Titanic"); PStr (lit "about a half");
            PStr (lit "data:image/png;base64,AAAA")]) (init [])
  = (Ok false, init []).
Proof.
  apply (third_answer_rejects (fun _ => None)
           [PInt 1; PStr (lit "Titanic"); PStr (lit "about a half");
            PStr (lit "data:image/png;base64,AAAA")]
           (PStr (lit "about a half")) (init []) eq_refl).
  do 4 right; exists (lit "about a half"); split; reflexivity.
Defined.

(** ** Runs and the evaluator they leave behind *)

Section RunInvariants.

Variable repr : pyval -> str.
Variable float_of_str : str -> option float.

(** The evaluator after a run, whether the run returned or raised. *)
Lemma run_evaluation_state (result : pyval) (self : Evaluator) :
  snd (run_evaluation repr float_of_str result self) =
  if four_elements result
  then award (content_points repr float_of_str result) self
  else self.
Proof.
  destruct (four_elements result) eqn:F.
  - rewrite (run_evaluation_accepted repr float_of_str result self F).
    cbv zeta; destruct (true_div _ _); reflexivity.
  - rewrite (run_evaluation_rejected repr float_of_str result self F).
    reflexivity.
Qed.

(** Twenty times a multiple of a half, as a percentage, is exact. *)
Lemma percentage_exact (k : Z) :
  0 <= k <= 10 ->
  exists quotient,
    true_div (2 * k) 20 = Ok quotient
    /\ PrimFloat.mul quotient 100 = float_of_Z (5 * (2 * k)).
Proof.
  intros H.
  assert (E : exists n, (n <= 10)%nat /\ k = Z.of_nat n)
    by (exists (Z.to_nat k); lia).
  destruct E as (n & Hn & ->).
  do 11 (destruct n as [|n];
         [vm_compute; eexists; split; reflexivity|]).
  lia.
Qed.

(** The two shapes of the report of a run on a new evaluator. *)
Lemma fresh_report (api_url : str) (result : pyval) (report : Report)
      (self' : Evaluator) :
  run_evaluation repr float_of_str result (init api_url)
  = (Ok report, self') ->
  (success report = true
   /\ exists k, 0 <= k <= 10 /\ score report = 2 * k
                /\ percentage report = PFloat (float_of_Z (5 * (2 * k))))
  \/ (success report = false /\ score report = 0
      /\ percentage report = PInt 0).
Proof.
  intros Hrun.
  destruct (four_elements result) eqn:F.
  - left.
    rewrite (run_evaluation_accepted repr float_of_str result _ F) in Hrun.
    destruct (content_points_range repr float_of_str result)
      as (k & E & Hk).
    cbv zeta in Hrun.
    set (cp := content_points repr float_of_str result) in *.
    assert (T : total_score (award cp (init api_url)) = 2 * k)
      by (change (0 + cp = 2 * k); lia).
    change (max_score (award cp (init api_url))) with 20 in Hrun.
    rewrite T in Hrun.
    destruct (percentage_exact k Hk) as (q & Hq & Hm).
    rewrite Hq in Hrun.
    assert (R : report = completed_report result (award cp (init api_url)) q)
      by congruence.
    rewrite R; cbn [success percentage score completed_report].
    split; [reflexivity|exists k; rewrite T, Hm; auto].
  - right.
    rewrite (run_evaluation_rejected repr float_of_str result _ F) in Hrun.
    injection Hrun as <- _; destruct result; repeat split.
Qed.

End RunInvariants.

(** X4: whatever the evaluator and the fetched value, and whether the
    run returns or raises, a run leaves [api_url] and [max_score] as
    they were and raises [total_score] by an even number between 0 and
    20; a value that is not a four-element array leaves it unchanged. *)
Theorem run_preserves_evaluator
        (repr : pyval -> str) (float_of_str : str -> option float)
        (result : pyval) (self : Evaluator) :
  let self' := snd (run_evaluation repr float_of_str result self) in
  api_url self' = api_url self
  /\ max_score self' = max_score self
  /\ (exists k, total_score self' = total_score self + 2 * k /\ 0 <= k <= 10)
  /\ (four_elements result = false -> self' = self).
Proof.
  cbv zeta; rewrite run_evaluation_state.
  destruct (four_elements result).
  - repeat split; try discriminate.
    destruct (content_points_range repr float_of_str result) as (k & E & Hk).
    exists k; simpl; rewrite E; auto.
  - repeat split; exists 0; lia.
Qed.

Lemma run_preserves_evaluator_witness :
  snd (run_evaluation (fun _ => []) (fun _ => None)
         (PDict [(lit "answer", PInt 1)])
         {| api_url := []; total_score := 12; max_score := 20 |})
  = {| api_url := []; total_score := 12; max_score := 20 |}.
Proof.
  apply (run_preserves_evaluator (fun _ => []) (fun _ => None)
           (PDict [(lit "answer", PInt 1)])
           {| api_url := []; total_score := 12; max_score := 20 |}).
  reflexivity.
Defined.

(** X5: after [n] runs on one evaluator that all fetched the same
    four-element array, [total_score] has grown by [n] times what the
    four checks award to that array: nothing resets it between runs. *)
Theorem rerun_total
        (repr : pyval -> str) (float_of_str : str -> option float)
        (n : nat) (result : pyval) (self : Evaluator) :
  four_elements result = true ->
  total_score (rerun repr float_of_str n result self) =
  total_score self + Z.of_nat n * content_points repr float_of_str result.
Proof.
  intros F; revert self; induction n as [|n IH]; intros self.
  - simpl; lia.
  - cbn [rerun]; rewrite IH, run_evaluation_state, F.
    unfold award; cbn [total_score]; lia.
Qed.

Lemma rerun_total_witness :
  total_score
    (rerun (fun _ => []) (fun _ => None) 3
       (PList [PInt 1; PStr (lit "Titanic"); PFloat 0.485782;
               PStr (lit "data:image/png;base64,AAAA")]) (init []))
  = 60.
Proof.
  rewrite (rerun_total (fun _ => []) (fun _ => None) 3
             (PList [PInt 1; PStr (lit "Titanic"); PFloat 0.485782;
                     PStr (lit "data:image/png;base64,AAAA")])
             (init []) eq_refl).
  reflexivity.
Defined.

(** X6: in the report of a completed run on a new evaluator the
    percentage is exactly five times the score: the division by 20 and
    the multiplication by 100 lose nothing for the scores that can
    occur. *)
Theorem fresh_percentage_exact
        (repr : pyval -> str) (float_of_str : str -> option float)
        (api_url : str) (result : pyval) (report : Report)
        (self' : Evaluator) :
  run_evaluation repr float_of_str result (init api_url)
  = (Ok report, self') ->
  success report = true ->
  percentage report = PFloat (float_of_Z (5 * score report)).
Proof.
  intros Hrun Hs.
  destruct (fresh_report repr float_of_str api_url result report self' Hrun)
    as [(_ & k & _ & -> & ->)|(Hf & _)]; [reflexivity|].
  rewrite Hf in Hs; discriminate Hs.
Qed.

Lemma fresh_percentage_exact_witness :
  percentage
    (completed_report
       (PList [PInt 1; PStr (lit "Titanic"); PFloat 0.9;
               PStr (lit "data:image/png;base64,A")])
       (award 14 (init [])) 0.7)
  = PFloat 70.
Proof.
  apply (fresh_percentage_exact (fun _ => []) (fun _ => None) []
           (PList [PInt 1; PStr (lit "Titanic"); PFloat 0.9;
                   PStr (lit "data:image/png;base64,A")])
           (completed_report
              (PList [PInt 1; PStr (lit "Titanic"); PFloat 0.9;
                      PStr (lit "data:image/png;base64,A")])
              (award 14 (init [])) 0.7)
           (award 14 (init [])));
    vm_compute; reflexivity.
Defined.

(** X7: the band printed at the end of a completed run on a new
    evaluator follows the score: excellent from 18, good from 14, fair
    from 10, needs work below. *)
Theorem fresh_verdict
        (repr : pyval -> str) (float_of_str : str -> option float)
        (api_url : str) (result : pyval) (report : Report)
        (self' : Evaluator) (p : float) :
  run_evaluation repr float_of_str result (init api_url)
  = (Ok report, self') ->
  percentage report = PFloat p ->
  verdict_of p =
  if 18 <=? score report then EXCELLENT
  else if 14 <=? score report then GOOD
  else if 10 <=? score report then FAIR
  else NEEDS_WORK.
Proof.
  intros Hrun Hp.
  destruct (fresh_report repr float_of_str api_url result report self' Hrun)
    as [(_ & k & Hk & -> & Hq)|(_ & _ & Hq)];
    rewrite Hq in Hp; [|discriminate Hp].
  injection Hp as <-.
  assert (E : exists n, (n <= 10)%nat /\ k = Z.of_nat n)
    by (exists (Z.to_nat k); lia).
  destruct E as (n & Hn & ->).
  do 11 (destruct n as [|n]; [vm_compute; reflexivity|]).
  lia.
Qed.

Lemma fresh_verdict_witness :
  verdict_of 70 = GOOD.
Proof.
  apply (fresh_verdict (fun _ => []) (fun _ => None) []
           (PList [PInt 1; PStr (lit "Titanic"); PFloat 0.9;
                   PStr (lit "data:image/png;base64,A")])
           (completed_report
              (PList [PInt 1; PStr (lit "Titanic"); PFloat 0.9;
                      PStr (lit "data:image/png;base64,A")])
              (award 14 (init [])) 0.7)
           (award 14 (init [])) 70);
    vm_compute; reflexivity.
Defined.

(** ** The request *)

(** X8: [main] never raises, and the report it computes is the one of a
    failed request ("API request failed", score 0, evaluator untouched)
    exactly when [test_api_response] returned [None]; it does so when
    the question file is missing, the request raises, the status is not
    200 or the body is not JSON, and also when the body is the JSON
    value [null].  A body that is an array, an object, a number or a
    boolean is returned as it is. *)
Theorem main_request_failure
        (repr : pyval -> str) (float_of_str : str -> option float)
        (r : reply) :
  (exists report self', main repr float_of_str r = (Ok report, self'))
  /\ (main repr float_of_str r
      = (Ok (request_failure_report (init default_api_url)),
         init default_api_url)
      <-> test_api_response r = PNone)
  /\ ((forall result, r <> Response 200 (Ok result)) ->
      test_api_response r = PNone)
  /\ (r = Response 200 (Ok PNone) -> test_api_response r = PNone)
  /\ (forall result,
         r = Response 200 (Ok result) -> (forall s, result <> PStr s) ->
         test_api_response r = result).
Proof.
  split; [|split; [|repeat split]].
  - unfold main; set (result := test_api_response r).
    destruct (four_elements result) eqn:F.
    + destruct (fresh_run_completes repr float_of_str default_api_url
                  result F) as [q ->].
      do 2 eexists; reflexivity.
    + rewrite (run_evaluation_rejected repr float_of_str result _ F).
      do 2 eexists; reflexivity.
  - unfold main; set (result := test_api_response r).
    destruct (four_elements result) eqn:F.
    + destruct (fresh_run_completes repr float_of_str default_api_url
                  result F) as [q ->].
      split; [intros [= H _]; discriminate H|].
      intros E; rewrite E in F; discriminate F.
    + rewrite (run_evaluation_rejected repr float_of_str result _ F).
      destruct result; split; trivial; try discriminate;
        intros [= H]; discriminate H.
  - intros H; destruct r as [| |status_code [result|e]]; try reflexivity;
      simpl; destruct (Z.eqb_spec status_code 200) as [->|]; try reflexivity.
    exfalso; exact (H result eq_refl).
  - intros ->; reflexivity.
  - intros result -> H; simpl.
    destruct result; try reflexivity.
    exfalso; exact (H s eq_refl).
Qed.

(** * Properties of the plot the service builds *)

(** ** Bits *)

Section BitFacts.

Local Open Scope N_scope.

Lemma all_below_spec (n : nat) (f : N -> bool) :
  all_below n f = true -> forall x, x < N.of_nat n -> f x = true.
Proof.
  induction n as [|n IH]; intros H x Hx; [lia|].
  simpl in H; apply andb_true_iff in H as [H1 H2].
  destruct (N.eq_dec x (N.of_nat n)) as [->|]; [exact H1|].
  apply IH; [exact H2|lia].
Qed.

Lemma all_below_spec2 (n m : nat) (f : N -> N -> bool) :
  all_below n (fun x => all_below m (f x)) = true ->
  forall x y, x < N.of_nat n -> y < N.of_nat m -> f x y = true.
Proof.
  intros H x y Hx Hy.
  apply (all_below_spec m (f x)); [|exact Hy].
  exact (all_below_spec n _ H x Hx).
Qed.

(** The six bits the encoder reads at [s] depend on the low [lb] bits
    of the old [leftchar] only, and not on the 32-bit wrap-around. *)
Lemma six_bits_low (leftchar b s lb : N) :
  s + 6 <= lb + 8 -> s + 6 <= 32 ->
  N.land (N.shiftr (u32 (N.lor (N.shiftl leftchar 8) b)) s) 0x3f =
  N.land (N.shiftr (N.lor (N.shiftl (leftchar mod 2 ^ lb) 8) b) s) 0x3f.
Proof.
  intros H1 H2; apply N.bits_inj; intros i.
  rewrite !N.land_spec; change 0x3f with (N.ones 6).
  destruct (N.ltb_spec i 6) as [Hi|Hi].
  - rewrite N.ones_spec_low, !andb_true_r by exact Hi.
    rewrite !N.shiftr_spec'; unfold u32; change 0xFFFFFFFF with (N.ones 32).
    rewrite N.land_spec, N.ones_spec_low, andb_true_r by lia.
    rewrite !N.lor_spec; f_equal.
    destruct (N.ltb_spec (i + s) 8) as [Hl|Hl].
    + rewrite !N.shiftl_spec_low by exact Hl; reflexivity.
    + rewrite !N.shiftl_spec_high' by exact Hl.
      rewrite N.mod_pow2_bits_low by lia; reflexivity.
  - rewrite N.ones_spec_high, !andb_false_r by exact Hi; reflexivity.
Qed.

(** The low bits of the new [leftchar] are those of the byte read. *)
Lemma low_bits_of_byte (leftchar b k : N) :
  k <= 8 -> u32 (N.lor (N.shiftl leftchar 8) b) mod 2 ^ k = b mod 2 ^ k.
Proof.
  intros Hk; apply N.bits_inj; intros i.
  destruct (N.ltb_spec i k) as [Hi|Hi].
  - rewrite !N.mod_pow2_bits_low by exact Hi.
    unfold u32; change 0xFFFFFFFF with (N.ones 32).
    rewrite N.land_spec, N.ones_spec_low, andb_true_r by lia.
    rewrite N.lor_spec, N.shiftl_spec_low by lia; reflexivity.
  - rewrite !N.mod_pow2_bits_high by exact Hi; reflexivity.
Qed.

Lemma land_low (x k : N) : N.land x (N.ones k) = x mod 2 ^ k.
Proof. apply N.land_ones. Qed.

End BitFacts.

(** ** The encoder, one byte at a time *)

Section EncodeFacts.

Local Open Scope N_scope.

Lemma below_64 (x : N) : N.land x 0x3f < 64.
Proof.
  change 0x3f with (N.ones 6); rewrite land_low.
  apply N.mod_lt; discriminate.
Qed.

(** The two tables are inverse of each other. *)
Lemma table_inverse (v : N) :
  v < 64 -> table_a2b_base64 (table_b2a_base64 v) = Some v.
Proof.
  intros Hv.
  assert (H : all_below 64
                (fun v => match table_a2b_base64 (table_b2a_base64 v) with
                          | Some w => w =? v
                          | None => false
                          end) = true) by (vm_compute; reflexivity).
  pose proof (all_below_spec 64 _ H v Hv) as E; cbv beta in E.
  destruct (table_a2b_base64 (table_b2a_base64 v)); [|discriminate].
  apply N.eqb_eq in E; subst; reflexivity.
Qed.

Lemma table_in_alphabet (v : N) :
  v < 64 -> in_alphabet (table_b2a_base64 v) = true.
Proof.
  intros Hv; unfold in_alphabet; rewrite (table_inverse v Hv); reflexivity.
Qed.

(** The decoder on a character the encoder wrote. *)
Lemma a2b_loop_encoded (v : N) (rest : bytes) (quad_pos leftchar pads : N)
      (out : bytes) :
  v < 64 ->
  a2b_loop (table_b2a_base64 v :: rest) quad_pos leftchar pads out =
  match quad_pos with
  | 0 => a2b_loop rest 1 v 0 out
  | 1 =>
      a2b_loop rest 2 (N.land v 0x0f) 0
        (u8 (N.lor (N.shiftl leftchar 2) (N.shiftr v 4)) :: out)
  | 2 =>
      a2b_loop rest 3 (N.land v 0x03) 0
        (u8 (N.lor (N.shiftl leftchar 4) (N.shiftr v 2)) :: out)
  | _ => a2b_loop rest 0 0 0 (u8 (N.lor (N.shiftl leftchar 6) v) :: out)
  end.
Proof.
  intros Hv.
  destruct (a2b_loop_char (table_b2a_base64 v) rest quad_pos leftchar pads out
              (table_in_alphabet v Hv)) as (w & Hw & ->).
  rewrite (table_inverse v Hv) in Hw; injection Hw as <-; reflexivity.
Qed.

(** A byte read with no bit waiting, with two and with four. *)
Lemma b2a_loop_0 (b : N) (rest : bytes) (leftchar : N) :
  b2a_loop (b :: rest) leftchar 0 =
  let leftchar' := u32 (N.lor (N.shiftl leftchar 8) b) in
  table_b2a_base64 (N.land (N.shiftr leftchar' 2) 0x3f)
    :: b2a_loop rest leftchar' 2.
Proof. reflexivity. Qed.

Lemma b2a_loop_2 (b : N) (rest : bytes) (leftchar : N) :
  b2a_loop (b :: rest) leftchar 2 =
  let leftchar' := u32 (N.lor (N.shiftl leftchar 8) b) in
  table_b2a_base64 (N.land (N.shiftr leftchar' 4) 0x3f)
    :: b2a_loop rest leftchar' 4.
Proof. reflexivity. Qed.

Lemma b2a_loop_4 (b : N) (rest : bytes) (leftchar : N) :
  b2a_loop (b :: rest) leftchar 4 =
  let leftchar' := u32 (N.lor (N.shiftl leftchar 8) b) in
  table_b2a_base64 (N.land (N.shiftr leftchar' 6) 0x3f)
    :: table_b2a_base64 (N.land (N.shiftr leftchar' 0) 0x3f)
    :: b2a_loop rest leftchar' 0.
Proof. reflexivity. Qed.

(** What the decoder rebuilds from six-bit groups, for all small
    values. *)
Lemma rebuild_first (b : N) :
  b < 256 ->
  N.land (N.shiftr (N.lor (N.shiftl 0 8) b) 2) 0x3f * 4 + b mod 4 = b.
Proof.
  intros Hb.
  assert (H : all_below 256
                (fun b => N.land (N.shiftr (N.lor (N.shiftl 0 8) b) 2) 0x3f
                          * 4 + b mod 4 =? b) = true)
    by (vm_compute; reflexivity).
  apply N.eqb_eq; exact (all_below_spec 256 _ H b Hb).
Qed.

Lemma rebuild_second (x b : N) :
  x < 4 -> b < 256 ->
  let v := N.land (N.shiftr (N.lor (N.shiftl x 8) b) 4) 0x3f in
  N.shiftr v 4 = x /\ N.land v 0x0f * 16 + b mod 16 = b
  /\ N.land v 0x0f < 16.
Proof.
  intros Hx Hb.
  assert (H : all_below 4
                (fun x => all_below 256
                   (fun b =>
                      let v := N.land (N.shiftr (N.lor (N.shiftl x 8) b) 4)
                                 0x3f in
                      (N.shiftr v 4 =? x)
                      && (N.land v 0x0f * 16 + b mod 16 =? b)
                      && (N.land v 0x0f <? 16))) = true)
    by (vm_compute; reflexivity).
  pose proof (all_below_spec2 4 256 _ H x b Hx Hb) as E; cbv beta zeta in E.
  apply andb_true_iff in E as [E E3]; apply andb_true_iff in E as [E1 E2].
  cbv zeta; repeat split;
    [apply N.eqb_eq|apply N.eqb_eq|apply N.ltb_lt]; assumption.
Qed.

Lemma rebuild_third (x b : N) :
  x < 16 -> b < 256 ->
  let v := N.land (N.shiftr (N.lor (N.shiftl x 8) b) 6) 0x3f in
  let w := N.land (N.shiftr (N.lor (N.shiftl x 8) b) 0) 0x3f in
  N.shiftr v 2 = x /\ u8 (N.lor (N.shiftl (N.land v 0x03) 6) w) = b.
Proof.
  intros Hx Hb.
  assert (H : all_below 16
                (fun x => all_below 256
                   (fun b =>
                      let v := N.land (N.shiftr (N.lor (N.shiftl x 8) b) 6)
                                 0x3f in
                      let w := N.land (N.shiftr (N.lor (N.shiftl x 8) b) 0)
                                 0x3f in
                      (N.shiftr v 2 =? x)
                      && (u8 (N.lor (N.shiftl (N.land v 0x03) 6) w) =? b)))
            = true)
    by (vm_compute; reflexivity).
  pose proof (all_below_spec2 16 256 _ H x b Hx Hb) as E; cbv beta zeta in E.
  apply andb_true_iff in E as [E1 E2].
  cbv zeta; split; apply N.eqb_eq; assumption.
Qed.

Lemma join_2 (leftchar x : N) :
  leftchar < 64 -> x < 4 -> u8 (N.lor (N.shiftl leftchar 2) x) = leftchar * 4 + x.
Proof.
  intros Hl Hx.
  assert (H : all_below 64
                (fun l => all_below 4
                   (fun x => u8 (N.lor (N.shiftl l 2) x) =? l * 4 + x))
            = true) by (vm_compute; reflexivity).
  apply N.eqb_eq; exact (all_below_spec2 64 4 _ H leftchar x Hl Hx).
Qed.

Lemma join_4 (leftchar x : N) :
  leftchar < 16 -> x < 16 ->
  u8 (N.lor (N.shiftl leftchar 4) x) = leftchar * 16 + x.
Proof.
  intros Hl Hx.
  assert (H : all_below 16
                (fun l => all_below 16
                   (fun x => u8 (N.lor (N.shiftl l 4) x) =? l * 16 + x))
            = true) by (vm_compute; reflexivity).
  apply N.eqb_eq; exact (all_below_spec2 16 16 _ H leftchar x Hl Hx).
Qed.

(** The last character before the padding. *)
Lemma last_of_one (x : N) :
  x < 4 -> N.shiftl x 4 < 64 /\ N.shiftr (N.shiftl x 4) 4 = x.
Proof.
  intros Hx.
  assert (H : all_below 4
                (fun x => (N.shiftl x 4 <? 64)
                          && (N.shiftr (N.shiftl x 4) 4 =? x)) = true)
    by (vm_compute; reflexivity).
  pose proof (all_below_spec 4 _ H x Hx) as E; cbv beta in E.
  apply andb_true_iff in E as [E1 E2].
  split; [apply N.ltb_lt|apply N.eqb_eq]; assumption.
Qed.

Lemma last_of_two (x : N) :
  x < 16 -> N.shiftl x 2 < 64 /\ N.shiftr (N.shiftl x 2) 2 = x.
Proof.
  intros Hx.
  assert (H : all_below 16
                (fun x => (N.shiftl x 2 <? 64)
                          && (N.shiftr (N.shiftl x 2) 2 =? x)) = true)
    by (vm_compute; reflexivity).
  pose proof (all_below_spec 16 _ H x Hx) as E; cbv beta in E.
  apply andb_true_iff in E as [E1 E2].
  split; [apply N.ltb_lt|apply N.eqb_eq]; assumption.
Qed.

End EncodeFacts.

(** ** Decoding what was encoded *)

Section RoundTrip.

Local Open Scope N_scope.

(** The decoder, started in the state that mirrors the encoder's,
    returns the byte that is half read, if any, and the bytes that
    remain.  The three states are: no bit waiting, two bits waiting,
    four bits waiting. *)
Lemma decode_encoded (data : bytes) :
  Forall (fun b => b < 256) data ->
  (forall leftchar lcd pads out,
      a2b_loop (b2a_loop data leftchar 0) 0 lcd pads out
      = Ok (rev out ++ data))
  /\ (forall leftchar lcd pads out,
         lcd < 64 ->
         a2b_loop (b2a_loop data leftchar 2) 1 lcd pads out
         = Ok (rev out ++ (lcd * 4 + leftchar mod 4) :: data))
  /\ (forall leftchar lcd pads out,
         lcd < 16 ->
         a2b_loop (b2a_loop data leftchar 4) 2 lcd pads out
         = Ok (rev out ++ (lcd * 16 + leftchar mod 16) :: data)).
Proof.
  induction 1 as [|b rest Hb _ (IH0 & IH2 & IH4)].
  - repeat split.
    + intros; simpl; rewrite app_nil_r; reflexivity.
    + intros leftchar lcd pads out Hl.
      change (b2a_loop [] leftchar 2)
        with [table_b2a_base64 (N.shiftl (N.land leftchar 3) 4);
              BASE64_PAD; BASE64_PAD].
      change 3 with (N.ones 2); rewrite land_low.
      assert (Hx : leftchar mod 2 ^ 2 < 4) by (apply N.mod_lt; discriminate).
      destruct (last_of_one _ Hx) as [Hv Hs].
      rewrite (a2b_loop_encoded _ _ _ _ _ _ Hv), Hs.
      rewrite (join_2 _ _ Hl Hx); reflexivity.
    + intros leftchar lcd pads out Hl.
      change (b2a_loop [] leftchar 4)
        with [table_b2a_base64 (N.shiftl (N.land leftchar 0xf) 2);
              BASE64_PAD].
      change 0xf with (N.ones 4); rewrite land_low.
      assert (Hx : leftchar mod 2 ^ 4 < 16)
        by (apply N.mod_lt; discriminate).
      destruct (last_of_two _ Hx) as [Hv Hs].
      rewrite (a2b_loop_encoded _ _ _ _ _ _ Hv), Hs.
      rewrite (join_4 _ _ Hl Hx); reflexivity.
  - repeat split.
    + intros leftchar lcd pads out.
      rewrite b2a_loop_0; cbv zeta.
      rewrite (a2b_loop_encoded _ _ _ _ _ _ (below_64 _)).
      rewrite IH2 by apply below_64.
      pose proof (low_bits_of_byte leftchar b 2) as L.
      pose proof (six_bits_low leftchar b 2 0) as S.
      change (2 ^ 0) with 1 in S; change (2 ^ 2) with 4 in L.
      rewrite N.mod_1_r in S.
      rewrite L, S by lia.
      rewrite (rebuild_first b Hb); reflexivity.
    + intros leftchar lcd pads out Hl.
      rewrite b2a_loop_2; cbv zeta.
      rewrite (a2b_loop_encoded _ _ _ _ _ _ (below_64 _)).
      pose proof (low_bits_of_byte leftchar b 4) as L.
      pose proof (six_bits_low leftchar b 4 2) as S.
      change (2 ^ 2) with 4 in S; change (2 ^ 4) with 16 in L.
      rewrite S by lia.
      assert (Hx : leftchar mod 4 < 4) by (apply N.mod_lt; discriminate).
      destruct (rebuild_second _ b Hx Hb) as (E1 & E2 & E3).
      rewrite IH4 by exact E3.
      rewrite E1, (join_2 _ _ Hl Hx), L, E2 by lia.
      simpl rev; rewrite <- app_assoc; reflexivity.
    + intros leftchar lcd pads out Hl.
      rewrite b2a_loop_4; cbv zeta.
      rewrite (a2b_loop_encoded _ _ _ _ _ _ (below_64 _)).
      rewrite (a2b_loop_encoded _ _ _ _ _ _ (below_64 _)).
      rewrite IH0.
      pose proof (six_bits_low leftchar b 6 4) as S6.
      pose proof (six_bits_low leftchar b 0 4) as S0.
      change (2 ^ 4) with 16 in S6, S0.
      rewrite S6, S0 by lia.
      assert (Hx : leftchar mod 16 < 16) by (apply N.mod_lt; discriminate).
      destruct (rebuild_third _ b Hx Hb) as (E1 & E2).
      rewrite E1, E2, (join_4 _ _ Hl Hx).
      simpl rev; rewrite <- !app_assoc; reflexivity.
Qed.

End RoundTrip.

(** ** What the encoder writes *)

Section EncodedText.

(** Every character written is of the alphabet or the padding. *)
Lemma b2a_loop_chars (data : bytes) :
  let P := fun c => in_alphabet c = true \/ c = BASE64_PAD in
  (forall leftchar, Forall P (b2a_loop data leftchar 0))
  /\ (forall leftchar, Forall P (b2a_loop data leftchar 2))
  /\ (forall leftchar, Forall P (b2a_loop data leftchar 4)).
Proof.
  intros P.
  assert (A : forall x, P (table_b2a_base64 (N.land x 0x3f)))
    by (intros x; left; apply table_in_alphabet, below_64).
  induction data as [|b rest (IH0 & IH2 & IH4)]; repeat split; intros leftchar.
  - constructor.
  - change (b2a_loop [] leftchar 2)
      with [table_b2a_base64 (N.shiftl (N.land leftchar 3) 4);
            BASE64_PAD; BASE64_PAD].
    change 3%N with (N.ones 2); rewrite land_low.
    assert (Hx : (leftchar mod 2 ^ 2 < 4)%N)
      by (apply N.mod_lt; discriminate).
    destruct (last_of_one _ Hx) as [Hv _].
    constructor; [left; apply table_in_alphabet; exact Hv|].
    constructor; [right; reflexivity|].
    constructor; [right; reflexivity|constructor].
  - change (b2a_loop [] leftchar 4)
      with [table_b2a_base64 (N.shiftl (N.land leftchar 0xf) 2); BASE64_PAD].
    change 0xf%N with (N.ones 4); rewrite land_low.
    assert (Hx : (leftchar mod 2 ^ 4 < 16)%N)
      by (apply N.mod_lt; discriminate).
    destruct (last_of_two _ Hx) as [Hv _].
    constructor; [left; apply table_in_alphabet; exact Hv|].
    constructor; [right; reflexivity|constructor].
  - rewrite b2a_loop_0; cbv zeta; constructor; [apply A|apply IH2].
  - rewrite b2a_loop_2; cbv zeta; constructor; [apply A|apply IH4].
  - rewrite b2a_loop_4; cbv zeta.
    constructor; [apply A|]; constructor; [apply A|apply IH0].
Qed.

(** The number of characters written, from each state. *)
Lemma b2a_loop_length (data : bytes) :
  let n := Z.of_nat (List.length data) in
  (forall leftchar,
      Z.of_nat (List.length (b2a_loop data leftchar 0)) = 4 * ((n + 2) / 3))
  /\ (forall leftchar,
         Z.of_nat (List.length (b2a_loop data leftchar 2))
         = 4 * ((n + 3) / 3) - 1)
  /\ (forall leftchar,
         Z.of_nat (List.length (b2a_loop data leftchar 4))
         = 4 * ((n + 4) / 3) - 2).
Proof.
  induction data as [|b rest (IH0 & IH2 & IH4)]; cbv zeta;
    repeat split; intros leftchar; try reflexivity.
  - rewrite b2a_loop_0; cbv zeta; cbn [List.length].
    rewrite !Nat2Z.inj_succ, IH2; Z.div_mod_to_equations; lia.
  - rewrite b2a_loop_2; cbv zeta; cbn [List.length].
    rewrite !Nat2Z.inj_succ, IH4; Z.div_mod_to_equations; lia.
  - rewrite b2a_loop_4; cbv zeta; cbn [List.length].
    rewrite !Nat2Z.inj_succ, IH0; Z.div_mod_to_equations; lia.
Qed.

Lemma b64encode_length (image : bytes) :
  Z.of_nat (List.length (b64encode image))
  = 4 * ((Z.of_nat (List.length image) + 2) / 3).
Proof. exact (proj1 (b2a_loop_length image) 0%N). Qed.

(** The encoded bytes are ASCII and hold no comma. *)
Lemma b64encode_ascii (image : bytes) :
  Forall (fun c => (c < 128)%N /\ c <> 44%N) (b64encode image).
Proof.
  eapply Forall_impl; [|exact (proj1 (b2a_loop_chars image) 0%N)].
  intros c [Hc| ->]; [|split; [reflexivity|discriminate]].
  pose proof (alphabet_range c Hc); lia.
Qed.

(** Decoding undoes encoding. *)
Lemma b64decode_b64encode (image : bytes) :
  Forall (fun b => (b < 256)%N) image ->
  b64decode (b64encode image) = Ok image.
Proof.
  intros H; unfold b64decode, a2b_base64.
  rewrite encode_ascii_id.
  - exact (proj1 (decode_encoded image H) 0%N 0%N 0%N []).
  - eapply Forall_impl; [|exact (b64encode_ascii image)].
    intros c [Hc _]; exact Hc.
Qed.

End EncodedText.

(** ** The data URI under the plot check *)

Section DataUri.

(** The four sub-criteria for a text made of a header, the marker and
    encoded bytes. *)
Lemma data_uri_criteria (uri header : str) (image : bytes) :
  uri = header ++ marker ++ b64encode image ->
  startswith uri (lit "data:image/") = true ->
  find_first marker uri = Some (header, b64encode image) ->
  Forall (fun c => (c < 128)%N) header ->
  Forall (fun b => (b < 256)%N) image ->
  plot_criteria (PStr uri)
  = Ok [true; true; Z.of_nat (List.length uri) <? 100000; true].
Proof.
  intros Hu Hp Hf Hh Hi; unfold plot_criteria.
  rewrite Hp, can_decode_segment; unfold contains; rewrite Hf.
  rewrite encode_utf8_ascii.
  - unfold up_to; rewrite no_comma_no_marker.
    + rewrite (b64decode_b64encode image Hi); reflexivity.
    + eapply Forall_impl; [|exact (b64encode_ascii image)].
      intros c [_ Hc]; exact Hc.
  - rewrite Hu; apply Forall_app; split; [exact Hh|].
    apply Forall_app; split.
    + repeat (constructor; [reflexivity|]); constructor.
    + eapply Forall_impl; [|exact (b64encode_ascii image)].
      intros c [Hc _]; exact Hc.
Qed.

(** The size test on the encoded text, in terms of the image. *)
Lemma size_bound (header n : Z) :
  22 <= header <= 23 -> 0 <= n ->
  (header + 4 * ((n + 2) / 3) <? 100000) = (n <=? 74982).
Proof.
  intros Hh Hn.
  destruct (Z.ltb_spec (header + 4 * ((n + 2) / 3)) 100000),
    (Z.leb_spec n 74982); trivial; exfalso;
    Z.div_mod_to_equations; lia.
Qed.

Lemma png_data_uri_criteria (image : bytes) :
  Forall (fun b => (b < 256)%N) image ->
  plot_criteria (PStr (png_data_uri image))
  = Ok [true; true; Z.of_nat (List.length image) <=? 74982; true].
Proof.
  intros Hi.
  rewrite (data_uri_criteria (png_data_uri image) (lit "data:image/png;")
             image); trivial; try reflexivity.
  - unfold png_data_uri; rewrite length_app, Nat2Z.inj_add, b64encode_length.
    rewrite (size_bound _ _); [reflexivity|simpl; lia|lia].
  - repeat (constructor; [reflexivity|]); constructor.
Qed.

Lemma webp_data_uri_criteria (image : bytes) :
  Forall (fun b => (b < 256)%N) image ->
  plot_criteria (PStr (webp_data_uri image))
  = Ok [true; true; Z.of_nat (List.length image) <=? 74982; true].
Proof.
  intros Hi.
  rewrite (data_uri_criteria (webp_data_uri image) (lit "data:image/webp;")
             image); trivial; try reflexivity.
  - unfold webp_data_uri; rewrite length_app, Nat2Z.inj_add, b64encode_length.
    rewrite (size_bound _ _); [reflexivity|simpl; lia|lia].
  - repeat (constructor; [reflexivity|]); constructor.
Qed.

Lemma octets_repeat (b : N) (n : nat) :
  (b < 256)%N -> Forall (fun b => (b < 256)%N) (repeat b n).
Proof. intros Hb; induction n; simpl; constructor; assumption. Qed.

End DataUri.

Set Warnings "-inexact-float".

(** X9: what the service encodes, the evaluator decodes: for every
    sequence of bytes, [base64.b64decode] of the text
    [base64.b64encode] wrote returns the bytes. *)
Theorem b64_round_trip (image : bytes) :
  Forall (fun b => (b < 256)%N) image ->
  b64decode (b64encode image) = Ok image.
Proof.
  intros H; unfold b64decode.
  assert (A : Forall (fun c => (c < 128)%N) (b64encode image)).
  { eapply Forall_impl; [|exact (b64encode_ascii image)].
    intros c [Hc _]; exact Hc. }
  rewrite (encode_ascii_id _ A); unfold a2b_base64.
  exact (proj1 (decode_encoded image H) 0%N 0%N 0%N []).
Qed.

Lemma b64_round_trip_witness :
  b64decode (b64encode [137; 80; 78; 71; 13; 10; 26; 10]%N)
  = Ok [137; 80; 78; 71; 13; 10; 26; 10]%N.
Proof.
  apply (b64_round_trip [137; 80; 78; 71; 13; 10; 26; 10]%N).
  repeat (constructor; [reflexivity|]); constructor.
Defined.

(** X10: the PNG data URI the service builds from an image of [n] bytes
    has [22 + 4 * ceil(n / 3)] characters, and the plot check of the
    evaluator gives it 8 points when [n <= 74982] and 6 points
    otherwise: prefix, marker and decoding always pass, the size test
    passes up to that length only. *)
Theorem png_data_uri_plot_check
        (image : bytes) (l : list pyval) (self : Evaluator) :
  Forall (fun b => (b < 256)%N) image ->
  nth_error l 3 = Some (PStr (png_data_uri image)) ->
  Z.of_nat (List.length (png_data_uri image))
  = 22 + 4 * ((Z.of_nat (List.length image) + 2) / 3)
  /\ awarded (evaluate_plot (PList l)) self
     = if Z.of_nat (List.length image) <=? 74982 then 8 else 6.
Proof.
  intros Hi Hl; split.
  - unfold png_data_uri; rewrite length_app, Nat2Z.inj_add, b64encode_length.
    reflexivity.
  - rewrite awarded_plot; unfold plot_points.
    cbv beta iota delta [getitem]; rewrite Hl.
    rewrite (png_data_uri_criteria image Hi).
    destruct (Z.of_nat (List.length image) <=? 74982); reflexivity.
Qed.

Lemma png_data_uri_plot_check_witness :
  awarded (evaluate_plot
             (PList [PInt 1; PStr (lit "Titanic"); PFloat 0.485782;
                     PStr (png_data_uri [137; 80; 78; 71]%N)]))
          (init []) = 8.
Proof.
  apply (proj2 (png_data_uri_plot_check [137; 80; 78; 71]%N
                  [PInt 1; PStr (lit "Titanic"); PFloat 0.485782;
                   PStr (png_data_uri [137; 80; 78; 71]%N)]
                  (init [])
                  ltac:(repeat (constructor; [reflexivity|]); constructor)
                  eq_refl)).
Defined.

(** X11: the answer [generic_analysis] returns scores 8 of 20 under the
    rubric when its default plot has at most 74982 bytes, and 6 of 20
    otherwise: its three placeholders earn nothing. *)
Theorem generic_analysis_score
        (repr : pyval -> str) (float_of_str : str -> option float)
        (api_url : str) (image : bytes) :
  Forall (fun b => (b < 256)%N) image ->
  exists report self',
    run_evaluation repr float_of_str (generic_analysis image) (init api_url)
    = (Ok report, self')
    /\ success report = true
    /\ score report = if Z.of_nat (List.length image) <=? 74982 then 8 else 6.
Proof.
  intros Hi.
  destruct (fresh_run_completes repr float_of_str api_url
              (generic_analysis image) eq_refl) as [q ->].
  do 2 eexists; split; [reflexivity|]; split; [reflexivity|].
  cbn [score completed_report].
  change (total_score
            (award (content_points repr float_of_str (generic_analysis image))
               (init api_url)))
    with (0 + content_points repr float_of_str (generic_analysis image)).
  unfold content_points.
  assert (P1 : first_answer_points (generic_analysis image) = 0)
    by reflexivity.
  assert (P2 : second_answer_points repr (generic_analysis image) = 0)
    by reflexivity.
  assert (P3 : third_answer_points float_of_str (generic_analysis image) = 0)
    by reflexivity.
  rewrite P1, P2, P3; unfold plot_points, generic_analysis.
  cbv beta iota delta [getitem nth_error create_default_plot].
  rewrite (webp_data_uri_criteria image Hi).
  destruct (Z.of_nat (List.length image) <=? 74982); reflexivity.
Qed.

Lemma generic_analysis_score_witness :
  exists report self',
    run_evaluation (fun _ => []) (fun _ => None)
      (generic_analysis [82; 73; 70; 70]%N) (init [])
    = (Ok report, self')
    /\ success report = true /\ score report = 8.
Proof.
  apply (generic_analysis_score (fun _ => []) (fun _ => None) []
           [82; 73; 70; 70]%N).
  repeat (constructor; [reflexivity|]); constructor.
Defined.

(** X12: whenever [create_rank_peak_scatterplot] returns, its result is
    the PNG data URI of one of its renderings: it begins with
    [data:image/], holds the marker, and the text after the marker
    decodes to the bytes of that rendering. *)
Theorem rank_peak_plot_decodes
        (first second fallback : outcome bytes) (uri : str) :
  (forall image,
      first = Ok image \/ second = Ok image \/ fallback = Ok image ->
      Forall (fun b => (b < 256)%N) image) ->
  create_rank_peak_scatterplot first second fallback = Ok uri ->
  exists image,
    (first = Ok image \/ second = Ok image \/ fallback = Ok image)
    /\ uri = png_data_uri image
    /\ startswith uri (lit "data:image/") = true
    /\ find_first marker uri = Some (lit "data:image/png;", b64encode image)
    /\ b64decode (b64encode image) = Ok image.
Proof.
  intros Ho; unfold create_rank_peak_scatterplot.
  assert (G : forall image,
             first = Ok image \/ second = Ok image \/ fallback = Ok image ->
             Ok (png_data_uri image) = Ok uri ->
             exists image0,
               (first = Ok image0 \/ second = Ok image0
                \/ fallback = Ok image0)
               /\ uri = png_data_uri image0
               /\ startswith uri (lit "data:image/") = true
               /\ find_first marker uri
                  = Some (lit "data:image/png;", b64encode image0)
               /\ b64decode (b64encode image0) = Ok image0).
  { intros image Hc [= <-]; exists image.
    repeat split; trivial.
    apply b64decode_b64encode, Ho, Hc. }
  destruct first as [i1|e1].
  - destruct (100000 <? Z.of_nat (List.length (b64encode i1))).
    + destruct second as [i2|e2]; [apply G; auto|].
      destruct fallback as [i3|e3]; [apply G; auto|discriminate].
    + apply G; auto.
  - destruct fallback as [i3|e3]; [apply G; auto|discriminate].
Qed.

Lemma rank_peak_plot_decodes_witness :
  exists image,
    (Raise ValueError = Ok image \/ Raise ValueError = Ok image
     \/ Ok [137; 80; 78; 71]%N = Ok image)
    /\ png_data_uri [137; 80; 78; 71]%N = png_data_uri image
    /\ startswith (png_data_uri [137; 80; 78; 71]%N) (lit "data:image/")
       = true
    /\ find_first marker (png_data_uri [137; 80; 78; 71]%N)
       = Some (lit "data:image/png;", b64encode image)
    /\ b64decode (b64encode image) = Ok image.
Proof.
  apply (rank_peak_plot_decodes (Raise ValueError) (Raise ValueError)
           (Ok [137; 80; 78; 71]%N) (png_data_uri [137; 80; 78; 71]%N)).
  - intros image [H|[H|H]]; try discriminate H.
    injection H as <-.
    repeat (constructor; [reflexivity|]); constructor.
  - reflexivity.
Defined.

(** X13: the size guard of [create_rank_peak_scatterplot] and the size
    test of the evaluator do not agree.  A first rendering of at most
    75000 bytes is returned as it is, since its base64 text has at most
    100000 characters; with the 22 characters in front of it the
    evaluator finds 100000 bytes or more as soon as the rendering has
    more than 74982 bytes, and the plot check gives 6 points, not 8. *)
Theorem rank_peak_size_guard
        (image : bytes) (second fallback : outcome bytes)
        (l : list pyval) (self : Evaluator) :
  Forall (fun b => (b < 256)%N) image ->
  Z.of_nat (List.length image) <= 75000 ->
  nth_error l 3 = Some (PStr (png_data_uri image)) ->
  create_rank_peak_scatterplot (Ok image) second fallback
  = Ok (png_data_uri image)
  /\ (74982 < Z.of_nat (List.length image) ->
      criterion_met 2 (PStr (png_data_uri image)) = false
      /\ awarded (evaluate_plot (PList l)) self = 6).
Proof.
  intros Hi Hn Hl; split.
  - unfold create_rank_peak_scatterplot; rewrite b64encode_length.
    destruct (Z.ltb_spec 100000
                (4 * ((Z.of_nat (List.length image) + 2) / 3)));
      [exfalso; Z.div_mod_to_equations; lia|reflexivity].
  - intros Hb.
    assert (E : (Z.of_nat (List.length image) <=? 74982) = false)
      by (apply Z.leb_gt; exact Hb).
    split.
    + unfold criterion_met; rewrite (png_data_uri_criteria image Hi), E.
      reflexivity.
    + rewrite awarded_plot; unfold plot_points.
      cbv beta iota delta [getitem]; rewrite Hl.
      rewrite (png_data_uri_criteria image Hi), E; reflexivity.
Qed.

Lemma rank_peak_size_guard_witness :
  create_rank_peak_scatterplot (Ok (repeat 0%N (Z.to_nat 74983)))
    (Raise ValueError) (Raise ValueError)
  = Ok (png_data_uri (repeat 0%N (Z.to_nat 74983)))
  /\ (74982 < Z.of_nat (List.length (repeat 0%N (Z.to_nat 74983))) ->
      criterion_met 2 (PStr (png_data_uri (repeat 0%N (Z.to_nat 74983))))
      = false
      /\ awarded
           (evaluate_plot
              (PList [PInt 1; PStr (lit "Titanic"); PFloat 0.485782;
                      PStr (png_data_uri (repeat 0%N (Z.to_nat 74983)))]))
           (init []) = 6).
Proof.
  apply (rank_peak_size_guard (repeat 0%N (Z.to_nat 74983))
           (Raise ValueError) (Raise ValueError)
           [PInt 1; PStr (lit "Titanic"); PFloat 0.485782;
            PStr (png_data_uri (repeat 0%N (Z.to_nat 74983)))]
           (init [])).
  - apply octets_repeat; reflexivity.
  - rewrite repeat_length, Z2Nat.id; [discriminate|discriminate].
  - reflexivity.
Defined.

Set Warnings "inexact-float".

(** * What the checks return, and what the size test counts *)

Section ReturnValues.

(** The plot check returns [all(criteria_met)]. *)
Lemma evaluate_plot_returns (result : pyval) (self : Evaluator) :
  fst (evaluate_plot result self) = Ok (plot_points result =? 8).
Proof.
  unfold evaluate_plot, try_except, plot_body, plot_points, bind, lift.
  destruct (getitem result 3) as [v|e]; [|reflexivity].
  cbv beta iota.
  destruct (plot_criteria v) as [c|e] eqn:E; [|reflexivity].
  destruct (plot_criteria_four _ _ E) as (b1 & b2 & b3 & b4 & ->).
  destruct b1, b2, b3, b4; reflexivity.
Qed.

(** The UTF-8 encoding of a text has between one and four bytes for
    each character. *)
Lemma encode_utf8_length (s : str) (encoded : bytes) :
  encode_utf8 s = Ok encoded ->
  (List.length s <= List.length encoded <= 4 * List.length s)%nat.
Proof.
  revert encoded; induction s as [|c s IH]; intros encoded; simpl.
  - intros [= <-]; simpl; lia.
  - destruct (encode_utf8_cp c) as [b|] eqn:Ec; [|discriminate].
    destruct (encode_utf8 s) as [bs|]; [|discriminate].
    intros [= <-]; rewrite length_app.
    specialize (IH bs eq_refl).
    assert (Hb : (1 <= List.length b <= 4)%nat).
    { unfold encode_utf8_cp in Ec.
      destruct (c <? 128)%N; [injection Ec as <-; simpl; lia|].
      destruct (c <? 2048)%N; [injection Ec as <-; simpl; lia|].
      destruct (c <? 65536)%N; [|injection Ec as <-; simpl; lia].
      destruct (is_surrogate c); [discriminate|].
      injection Ec as <-; simpl; lia. }
    lia.
Qed.

End ReturnValues.

(** X14: each check returns [True] exactly when it awards all of its
    points, 4 for a scalar check and 8 for the plot check; a plot that
    meets some of the sub-criteria only earns their points and returns
    [False].  None of the four checks raises. *)
Theorem checks_return_full_marks
        (repr : pyval -> str) (float_of_str : str -> option float)
        (result : pyval) (self : Evaluator) :
  (exists b, fst (evaluate_first_answer result self) = Ok b
             /\ (b = true <->
                 awarded (evaluate_first_answer result) self = 4))
  /\ (exists b, fst (evaluate_second_answer repr result self) = Ok b
                /\ (b = true <->
                    awarded (evaluate_second_answer repr result) self = 4))
  /\ (exists b, fst (evaluate_third_answer float_of_str result self) = Ok b
                /\ (b = true <->
                    awarded (evaluate_third_answer float_of_str result) self
                    = 4))
  /\ (exists b, fst (evaluate_plot result self) = Ok b
                /\ (b = true <-> awarded (evaluate_plot result) self = 8)).
Proof.
  rewrite awarded_first, (awarded_second repr),
    (awarded_third float_of_str), awarded_plot.
  rewrite evaluate_first_answer_run, evaluate_second_answer_run,
    evaluate_third_answer_run, evaluate_plot_returns.
  cbn [fst]; repeat split.
  - eexists; split; [reflexivity|].
    destruct (first_answer_points_range result) as [-> | ->];
      split; trivial; discriminate.
  - eexists; split; [reflexivity|].
    destruct (second_answer_points_range repr result) as [-> | ->];
      split; trivial; discriminate.
  - eexists; split; [reflexivity|].
    destruct (third_answer_points_range float_of_str result) as [-> | ->];
      split; trivial; discriminate.
  - eexists; split; [reflexivity|apply Z.eqb_eq].
Qed.

(** X15: the size test of the plot check counts UTF-8 bytes, one to
    four for each character: a string of 100,000 characters or more
    always fails it, and a string of fewer than 25,000 characters that
    has an encoding always passes it. *)
Theorem size_test_counts_bytes (s : str) :
  (100000 <= Z.of_nat (List.length s) -> criterion_met 2 (PStr s) = false)
  /\ (Z.of_nat (List.length s) < 25000 ->
      succeeds (encode_utf8 s) = true ->
      criterion_met 2 (PStr s) = true).
Proof.
  rewrite criterion_size; split.
  - intros H; destruct (encode_utf8 s) as [e|] eqn:E; [|reflexivity].
    pose proof (encode_utf8_length s e E); apply Z.ltb_ge; lia.
  - intros H Hs; destruct (encode_utf8 s) as [e|] eqn:E; [|discriminate].
    pose proof (encode_utf8_length s e E); apply Z.ltb_lt; lia.
Qed.

Lemma size_test_counts_bytes_witness :
  criterion_met 2 (PStr (repeat 0x1F50D%N (Z.to_nat 100000))) = false
  /\ criterion_met 2 (PStr (lit "data:image/png;base64,AAAA")) = true.
Proof.
  split.
  - apply (proj1 (size_test_counts_bytes
                    (repeat 0x1F50D%N (Z.to_nat 100000)))).
    rewrite repeat_length, Z2Nat.id; [reflexivity|discriminate].
  - apply (proj2 (size_test_counts_bytes
                    (lit "data:image/png;base64,AAAA")));
      reflexivity.
Defined.

Lemma main_request_failure_witness :
  main (fun _ => []) (fun _ => None)
    (Response 404 (Ok (PList [PInt 1; PStr (lit "Titanic")])))
  = (Ok (request_failure_report (init default_api_url)),
     init default_api_url).
Proof.
  apply (proj1 (proj2 (main_request_failure (fun _ => []) (fun _ => None)
                         (Response 404
                            (Ok (PList [PInt 1; PStr (lit "Titanic")])))))).
  reflexivity.
Defined.
